(** * Forum posts: the bad-language validator and the title search

    A shallow embedding of

    - [forumApp/posts/validators.py]  ([BadLanguageValidator]),
    - [forumApp/posts/forms.py]       ([SearchForm], the model forms),
    - [forumApp/posts/models.py]      ([Post]),
    - [forumApp/posts/views.py]       ([dashboard], [details_post],
                                       [create_post], [edit_post],
                                       [delete_post]),
    - [todo_app/views.py]             ([index]),

    together with the statements of the specification about them.

    Text is modelled by [string], that is, over the one-byte (ASCII)
    range of Python's [str]: [lower], [strip] and the [in] operator are
    the restrictions of [str.lower], [str.strip] and substring containment
    to that range.  The framework pieces the views call (the form field's
    cleaning, the [title__icontains] lookup of the ORM) are modelled by
    their documented behaviour; what the repository itself writes
    ([max_length=100], [required=False], the default word list, the
    control flow of the views) is transcribed from the source. *)

From Stdlib Require Import Ascii String.
From stdpp Require Import base list strings gmap.


(** ** Python strings *)

Module Str.

(** [c.lower()] for one ASCII character: "A".."Z" go to "a".."z". *)
Definition lower_char (c : ascii) : ascii :=
  let n := nat_of_ascii c in
  if (65 <=? n)%nat && (n <=? 90)%nat then ascii_of_nat (n + 32) else c.

(** [s.lower()] on ASCII text: "A".."Z" are folded, every other character
    is left as it is. *)
Fixpoint lower (s : string) : string :=
  match s with
  | EmptyString => EmptyString
  | String c s' => String (lower_char c) (lower s')
  end.

(** [s.startswith(p)] *)
Fixpoint startswith (p s : string) : bool :=
  match p, s with
  | EmptyString, _ => true
  | String _ _, EmptyString => false
  | String a p', String b s' => if decide (a = b) then startswith p' s' else false
  end.

(** [sub in s]: [sub] occurs in [s] as a contiguous substring. *)
Fixpoint contains (sub s : string) : bool :=
  match s with
  | EmptyString => startswith sub EmptyString
  | String _ s' => startswith sub s || contains sub s'
  end.

(** [c.isspace()] on the ASCII range: tab, line feed, vertical tab,
    form feed, carriage return, the four separators 28..31, space. *)
Definition isspace (c : ascii) : bool :=
  let n := nat_of_ascii c in
  ((9 <=? n)%nat && (n <=? 13)%nat) || ((28 <=? n)%nat && (n <=? 32)%nat).

(** [s.lstrip()] *)
Fixpoint lstrip (s : string) : string :=
  match s with
  | EmptyString => EmptyString
  | String c s' => if isspace c then lstrip s' else s
  end.

(** [s.rstrip()] *)
Fixpoint rstrip (s : string) : string :=
  match s with
  | EmptyString => EmptyString
  | String c s' =>
      match rstrip s' with
      | EmptyString => if isspace c then EmptyString else String c EmptyString
      | r => String c r
      end
  end.

(** [s.strip()] *)
Definition strip (s : string) : string := rstrip (lstrip s).

(** The meaning of "[sub] is a substring of [s]". *)
Definition Substring (sub s : string) : Prop :=
  ∃ pre post, s = pre +:+ sub +:+ post.

(** Case-insensitive containment: containment after case folding. *)
Definition ISubstring (sub s : string) : Prop :=
  Substring (lower sub) (lower s).

End Str.

(** ** Calls that may raise, over a store

    A Python call either returns a value or raises; it runs against a
    store (the validator object, the database) that it may read and
    write.  [M S A] threads the store through explicitly. *)

Inductive Exception : Type :=
  | ValidationError (message : string)
  | KeyError (key : string).

Inductive Outcome (A : Type) : Type :=
  | Return (a : A)
  | Raise (e : Exception).
Arguments Return {A} a.
Arguments Raise {A} e.

Definition M (S A : Type) : Type := S → Outcome A * S.

Global Instance M_ret {S} : MRet (M S) := λ A a s, (Return a, s).

Global Instance M_bind {S} : MBind (M S) := λ A B k m s,
  match m s with
  | (Return a, s') => k a s'
  | (Raise e, s') => (Raise e, s')
  end.

Definition raise {S A} (e : Exception) : M S A := λ s, (Raise e, s).

Definition get {S} : M S S := λ s, (Return s, s).

(** [for x in xs: body(x)]: the first iteration that raises ends the loop. *)
Fixpoint for_ {S A} (xs : list A) (body : A → M S unit) : M S unit :=
  match xs with
  | [] => mret ()
  | x :: xs' => body x ;; for_ xs' body
  end.

(** [d[key]] on a dict with string keys. *)
Definition getitem {S V} (d : gmap string V) (key : string) : M S V :=
  match d !! key with
  | Some v => mret v
  | None => raise (KeyError key)
  end.

Definition outcome_map {A B} (f : A → B) (o : Outcome A) : Outcome B :=
  match o with
  | Return a => Return (f a)
  | Raise e => Raise e
  end.

(** ** [validators.py] *)

Module BadLanguageValidator.

Record t : Type := { bad_words : list string }.

Definition __init__ (bad_words : option (list string)) : t :=
  match bad_words with
  | None => {| bad_words := ["bad_word_1"; "bad_word_2"; "bad_word_3"] |}
  | Some ws => {| bad_words := ws |}
  end.

Definition __call__ (value : string) : M t unit :=
  self ← get;
  for_ (bad_words self) (λ bad_word,
    if Str.contains (Str.lower bad_word) (Str.lower value)
    then raise (ValidationError "The text contains bad language")
    else mret ()).

End BadLanguageValidator.

(** The two results of the specification's [validate]: the call returns
    ([Accepted]) or raises [ValidationError] with a reason ([Rejected]). *)
Definition Accepted : Outcome unit := Return ().
Definition Rejected (reason : string) : Outcome unit :=
  Raise (ValidationError reason).

(** [validate(text, blacklist)]: build the validator with the caller's
    list and call it on the text. *)
Definition validate (text : string) (blacklist : list string) : Outcome unit :=
  (BadLanguageValidator.__call__ text
     (BadLanguageValidator.__init__ (Some blacklist))).1.

(** [validate] when the caller passes no list. *)
Definition validate_default (text : string) : Outcome unit :=
  (BadLanguageValidator.__call__ text (BadLanguageValidator.__init__ None)).1.

Definition default_blacklist : list string :=
  BadLanguageValidator.bad_words (BadLanguageValidator.__init__ None).

(** ** [models.py] *)

(** A model whose rows carry a [title] column. *)
Class Titled (A : Type) : Type := title_of : A → string.

Record Post : Type := {
  pk : Z;
  title : string;
  content : string;
  author : string;
  created_at : Z;
  language : string;
}.

Global Instance Post_titled : Titled Post := title.

(** The database as a view sees it: the rows of the model's table, in the
    order in which an unordered query yields them. *)
Record Table (A : Type) : Type := { rows : list A }.
Arguments rows {A} _.

(** A [QuerySet] is the list of rows it evaluates to. *)
Module QuerySet.

(** [Model.objects.all()] *)
Definition all {A} : M (Table A) (list A) := λ db, (Return (rows db), db).

(** The [icontains] lookup: case-insensitive containment, for a query
    the database takes literally (no NUL, bounded length). *)
Definition icontains (value query : string) : bool :=
  Str.contains (Str.lower query) (Str.lower value).

(** [qs.filter(title__icontains=query)] *)
Definition filter_title__icontains {A} `{Titled A}
    (query : string) (qs : list A) : list A :=
  filter (λ r, icontains (title_of r) query = true) qs.

End QuerySet.

(** ** [forms.py] *)

Module SearchForm.

(** The one field: [query = forms.CharField(required=False, max_length=100)]. *)
Definition required : bool := false.
Definition max_length : nat := 100.

Inductive FieldError : Type :=
  | error_required
  | error_max_length
  | error_null_characters_not_allowed.

(** [CharField.to_python]: a missing value is the empty value [""];
    a present one is stripped of surrounding whitespace. *)
Definition to_python (value : option string) : string :=
  match value with
  | None => ""
  | Some v => Str.strip v
  end.

(** [Field.run_validators]: nothing runs on the empty value; otherwise
    every validator runs and the errors are collected, in the order
    [MaxLengthValidator(100)], [ProhibitNullCharactersValidator()]. *)
Definition run_validators (value : string) : list FieldError :=
  if decide (value = "") then []
  else
    (if decide (max_length < String.length value) then [error_max_length] else [])
    ++ (if Str.contains (String "000" "") value
        then [error_null_characters_not_allowed] else []).

(** [Field.clean]: [to_python], then [validate] (the [required] test),
    then [run_validators]. *)
Definition clean (value : option string) : list FieldError + string :=
  let value := to_python value in
  if bool_decide (value = "") && required then inl [error_required]
  else
    match run_validators value with
    | [] => inr value
    | errs => inl errs
    end.

(** A bound form: [SearchForm(request.GET)]. *)
Record t : Type := { data : gmap string string }.

(** [form.errors] after [full_clean] *)
Definition errors (form : t) : gmap string (list FieldError) :=
  match clean (data form !! "query") with
  | inl e => {[ "query" := e ]}
  | inr _ => ∅
  end.

(** [form.cleaned_data] after [full_clean]: a field that failed has no
    entry. *)
Definition cleaned_data (form : t) : gmap string string :=
  match clean (data form !! "query") with
  | inl _ => ∅
  | inr v => {[ "query" := v ]}
  end.

(** [form.is_valid()] *)
Definition is_valid (form : t) : bool := bool_decide (errors form = ∅).

End SearchForm.

(** ** [views.py] *)

Record HttpRequest : Type := {
  method : string;
  GET : gmap string string;
}.

(** The context [dashboard] hands to the template. *)
Record DashboardContext : Type := {
  ctx_posts : list Post;
  ctx_form : SearchForm.t;
}.

Definition dashboard (request : HttpRequest) : M (Table Post) DashboardContext :=
  let form := {| SearchForm.data := GET request |} in
  posts ← QuerySet.all;
  posts ← (if decide (method request = "GET") then
             if SearchForm.is_valid form then
               query ← getitem (SearchForm.cleaned_data form) "query";
               mret (QuerySet.filter_title__icontains query posts)
             else mret posts
           else mret posts);
  mret {| ctx_posts := posts; ctx_form := form |}.

(** The context of the task list's [index]. *)
Record IndexContext (Task : Type) : Type := {
  ctx_title_filter : string;
  ctx_tasks : list Task;
}.
Arguments ctx_title_filter {Task} _.
Arguments ctx_tasks {Task} _.

(** [todo_app/views.py]; the [Task] model is any model with a title, and
    [Task.objects.filter(...)] is [Task.objects.all().filter(...)].  The
    view hands the parameter to the lookup as it comes; that the result
    is exactly the matching tasks is stated for plain queries only (see
    [plain_query]). *)
Definition index {Task} `{Titled Task} (request : HttpRequest)
    : M (Table Task) (IndexContext Task) :=
  let title_filter := default "" (GET request !! "title_filter") in
  tasks ← QuerySet.all;
  let tasks := QuerySet.filter_title__icontains title_filter tasks in
  mret {| ctx_title_filter := title_filter; ctx_tasks := tasks |}.

(** ** The specification's [filter(records, query)]

    The records are the rows of the table, the query is the [query]
    parameter of a GET request (absent: [None]), the result is the
    sequence the view puts in its context. *)

Definition search_request (key : string) (query : option string) : HttpRequest :=
  {| method := "GET";
     GET := match query with
            | Some q => {[ key := q ]}
            | None => ∅
            end |}.

Definition dashboard_filter (records : list Post) (query : option string)
    : Outcome (list Post) :=
  outcome_map ctx_posts
    (dashboard (search_request "query" query) {| rows := records |}).1.

Definition index_filter {Task} `{Titled Task} (records : list Task)
    (query : option string) : Outcome (list Task) :=
  outcome_map ctx_tasks
    (index (search_request "title_filter" query) {| rows := records |}).1.

(** ** Auxiliary definitions for the statements *)

Definition bad_language : string := "The text contains bad language".

(** The body of the loop of [__call__]. *)
Definition check_word {S} (value bad_word : string) : M S unit :=
  if Str.contains (Str.lower bad_word) (Str.lower value)
  then raise (ValidationError bad_language)
  else mret ().

(** The posts [dashboard] selects, as a function of request and rows. *)
Definition dashboard_posts (request : HttpRequest) (posts : list Post) : list Post :=
  if decide (method request = "GET") then
    match SearchForm.clean (GET request !! "query") with
    | inr query => QuerySet.filter_title__icontains query posts
    | inl _ => posts
    end
  else posts.

(** [c * n] *)
Fixpoint times (c : ascii) (n : nat) : string :=
  match n with
  | 0 => ""
  | S n' => String c (times c n')
  end.

(** A query the search form refuses. *)
Definition malformed (q : string) : Prop :=
  ∃ e, SearchForm.clean (Some q) = inl e.

(** The first half of C4 as the specification words it. *)
Definition empty_text_always_accepted : Prop :=
  ∀ blacklist : list string, validate "" blacklist = Accepted.

(** C2 as the specification words it, for [dashboard]: on a non-empty
    query the result is an order-preserving subsequence, every returned
    record contains the query in its title and no excluded record does. *)
Definition filter_exact_for_every_query : Prop :=
  ∀ (records : list Post) (q : string), q ≠ "" →
    ∃ out, dashboard_filter records (Some q) = Return out
      ∧ out `sublist_of` records
      ∧ ∀ r, r ∈ records → (r ∈ out ↔ Str.ISubstring q (title r)).

Definition mk_post (n : Z) (t : string) : Post :=
  {| pk := n; title := t; content := ""; author := ""; created_at := 0;
     language := "" |}.

(** ** [views.py]: the views that read and write single posts *)

(** A string of whitespace only. *)
Fixpoint blank (s : string) : bool :=
  match s with
  | EmptyString => true
  | String c s' => Str.isspace c && blank s'
  end.

(** What these views can raise: [Post.objects.get] finds no row or more
    than one, [form.save()] refuses a form with errors. *)
Inductive ViewError : Type :=
  | DoesNotExist
  | MultipleObjectsReturned
  | ValueError (message : string).

Definition V (S A : Type) : Type := S → (ViewError + A) * S.

Global Instance V_ret {S} : MRet (V S) := λ A a s, (inr a, s).

Global Instance V_bind {S} : MBind (V S) := λ A B k m s,
  match m s with
  | (inr a, s') => k a s'
  | (inl e, s') => (inl e, s')
  end.

Definition vraise {S A} (e : ViewError) : V S A := λ s, (inl e, s).

(** [render(request, template_name, context)] and [redirect(to)] *)
Inductive HttpResponse (C : Type) : Type :=
  | render (template_name : string) (context : C)
  | redirect (to : string).
Arguments render {C} template_name context.
Arguments redirect {C} to.

(** A request with its form body: [request.POST]. *)
Record HttpRequestWithBody : Type := {
  head :> HttpRequest;
  POST : gmap string string;
}.

(** What the database supplies on INSERT: the new primary key and, for
    [auto_now_add], the current time. *)
Record InsertEnv : Type := {
  env_new_pk : Z;
  env_now : Z;
}.

(** A new, unsaved [Post()] as INSERT will complete it; [other] is
    [LanguageChoices.OTHER], the default of [language]. *)
Definition blank_post (other : string) (env : InsertEnv) : Post :=
  {| pk := env_new_pk env; title := ""; content := ""; author := "";
     created_at := env_now env; language := other |}.

Module Manager.

(** [Post.objects.get(pk=pk)] *)
Definition get (k : Z) : V (Table Post) Post := λ db,
  match filter (λ p, pk p = k) (rows db) with
  | [] => (inl DoesNotExist, db)
  | [p] => (inr p, db)
  | _ => (inl MultipleObjectsReturned, db)
  end.

(** [instance.save()] of a new instance: INSERT. *)
Definition insert (p : Post) : V (Table Post) unit := λ db,
  (inr (), {| rows := rows db ++ [p] |}).

(** [instance.save()] of a fetched instance: UPDATE of the row with its
    primary key, INSERT when no row has it. *)
Definition update (p : Post) : V (Table Post) unit := λ db,
  if decide (Exists (λ r, pk r = pk p) (rows db)) then
    (inr (), {| rows := (λ r, if decide (pk r = pk p) then p else r) <$> rows db |})
  else (inr (), {| rows := rows db ++ [p] |}).

(** [instance.delete()] *)
Definition delete (p : Post) : V (Table Post) unit := λ db,
  (inr (), {| rows := filter (λ r, pk r ≠ pk p) (rows db) |}).

End Manager.

(** ** [forms.py]: the model forms of [Post]

    [PostBaseForm] is a [ModelForm] over [Post] with [fields = "__all__"]:
    the editable fields [title], [content], [author], [language], each
    required, cleaned first by its form field and then by the model field
    ([max_length], [validators]).  The choices of [language] are those of
    [LanguageChoices] in [forumApp/posts/choices.py]; the definitions
    take their values as the parameter [choices]. *)

Module PostForm.

Inductive FieldError : Type :=
  | error_required
  | error_max_length
  | error_null_characters_not_allowed
  | error_invalid_choice
  | error_validator (raised : Exception).

(** A form: the bound data ([None]: unbound), the instance ([None]: a new
    [Post]), and whether the fields are disabled. *)
Record t : Type := {
  data : option (gmap string string);
  instance : option Post;
  disabled : bool;
}.

(** The result of cleaning one field. *)
Definition Cleaned : Type := list FieldError + string.

(** [forms.CharField(required=True, max_length=...).clean] *)
Definition clean_char (max_length : option nat) (value : option string) : Cleaned :=
  let value := SearchForm.to_python value in
  if decide (value = "") then inl [error_required]
  else
    match
      (match max_length with
       | Some n => if decide (n < String.length value) then [error_max_length] else []
       | None => []
       end)
      ++ (if Str.contains (String "000" "") value
          then [error_null_characters_not_allowed] else [])
    with
    | [] => inr value
    | errs => inl errs
    end.

(** [forms.TypedChoiceField(required=True, choices=...).clean] *)
Definition clean_choice (choices : list string) (value : option string) : Cleaned :=
  let value := default "" value in
  if decide (value = "") then inl [error_required]
  else if decide (value ∈ choices) then inr value
  else inl [error_invalid_choice].

(** [MaxLengthValidator(n)] of a model [CharField] *)
Definition max_length_validator (n : nat) (value : string) : list FieldError :=
  if decide (n < String.length value) then [error_max_length] else [].

(** The validators of [content]: [(BadLanguageValidator(),)] *)
Definition content_validators (value : string) : list FieldError :=
  match (BadLanguageValidator.__call__ value (BadLanguageValidator.__init__ None)).1 with
  | Return _ => []
  | Raise e => [error_validator e]
  end.

(** The model field's part of the cleaning, on a value the form field
    let through. *)
Definition model_clean (validators : string → list FieldError) (c : Cleaned) : Cleaned :=
  match c with
  | inl errs => inl errs
  | inr value =>
      match validators value with
      | [] => inr value
      | errs => inl errs
      end
  end.

(** The value a field is cleaned from: of a disabled field the initial
    value, taken from the instance, else the submitted one. *)
Definition bound_value (form : t) (d : gmap string string)
    (name : string) (attr : Post → string) : option string :=
  if disabled form then attr <$> instance form else d !! name.

Section Choices.
Context (choices : list string).

(** The four fields after the form fields' [clean]. *)
Definition form_title (form : t) (d : gmap string string) : Cleaned :=
  clean_char (Some 100) (bound_value form d "title" title).
Definition form_content (form : t) (d : gmap string string) : Cleaned :=
  clean_char None (bound_value form d "content" content).
Definition form_author (form : t) (d : gmap string string) : Cleaned :=
  clean_char (Some 30) (bound_value form d "author" author).
Definition form_language (form : t) (d : gmap string string) : Cleaned :=
  clean_choice choices (bound_value form d "language" language).

(** and after the model's [full_clean]. *)
Definition clean_title (form : t) (d : gmap string string) : Cleaned :=
  model_clean (max_length_validator 100) (form_title form d).
Definition clean_content (form : t) (d : gmap string string) : Cleaned :=
  model_clean content_validators (form_content form d).
Definition clean_author (form : t) (d : gmap string string) : Cleaned :=
  model_clean (max_length_validator 30) (form_author form d).
Definition clean_language (form : t) (d : gmap string string) : Cleaned :=
  model_clean (max_length_validator 20) (form_language form d).

(** [form.errors] *)
Definition errors (form : t) : list (string * list FieldError) :=
  match data form with
  | None => []
  | Some d =>
      omap (λ '(name, c), match c with inl errs => Some (name, errs) | inr _ => None end)
        [("title", clean_title form d); ("content", clean_content form d);
         ("author", clean_author form d); ("language", clean_language form d)]
  end.

(** [form.is_valid()]: bound and without errors. *)
Definition is_valid (form : t) : bool :=
  match data form with
  | None => false
  | Some _ => bool_decide (errors form = [])
  end.

(** [construct_instance]: the values the form fields let through are
    written to the instance, before the model validates them. *)
Definition construct_instance (form : t) (d : gmap string string) (p : Post) : Post :=
  let set (c : Cleaned) (old : string) : string :=
    match c with inr v => v | inl _ => old end in
  {| pk := pk p;
     title := set (form_title form d) (title p);
     content := set (form_content form d) (content p);
     author := set (form_author form d) (author p);
     created_at := created_at p;
     language := set (form_language form d) (language p) |}.

(** The instance after [is_valid()] ran: validation of a bound form has
    written to it. *)
Definition cleaned_instance (form : t) (p : Post) : Post :=
  match data form with
  | None => p
  | Some d => construct_instance form d p
  end.

(** The form after [is_valid()] ran; it shares its instance with the
    view. *)
Definition full_clean (form : t) : t :=
  {| data := data form;
     instance := cleaned_instance form <$> instance form;
     disabled := disabled form |}.

(** [form.save()]: refuses a form with errors, else saves the instance. *)
Definition save (other : string) (env : InsertEnv) (form : t) : V (Table Post) unit :=
  match errors form with
  | _ :: _ =>
      vraise (ValueError
        match instance form with
        | None => "The Post could not be created because the data didn't validate."
        | Some _ => "The Post could not be changed because the data didn't validate."
        end)
  | [] =>
      match instance (full_clean form) with
      | Some p => Manager.update p
      | None => Manager.insert (cleaned_instance form (blank_post other env))
      end
  end.

End Choices.

End PostForm.

(** [PostCreateForm(data)], [PostEditForm(data, instance=post)],
    [PostDeleteForm(data, instance=post)]: the last one disables every
    field in its [__init__]. *)
Definition PostCreateForm (data : option (gmap string string)) : PostForm.t :=
  {| PostForm.data := data; PostForm.instance := None; PostForm.disabled := false |}.

Definition PostEditForm (data : option (gmap string string)) (post : Post) : PostForm.t :=
  {| PostForm.data := data; PostForm.instance := Some post; PostForm.disabled := false |}.

Definition PostDeleteForm (data : option (gmap string string)) (post : Post) : PostForm.t :=
  {| PostForm.data := data; PostForm.instance := Some post; PostForm.disabled := true |}.

(** [request.POST or None]: an empty body counts as no data. *)
Definition POST_or_None (request : HttpRequestWithBody) : option (gmap string string) :=
  if decide (POST request = ∅) then None else Some (POST request).

(** ** [views.py]: [details_post], [create_post], [edit_post], [delete_post] *)

Section PostViews.
Context (choices : list string) (other : string).

Definition details_post (request : HttpRequestWithBody) (pk : Z)
    : V (Table Post) (HttpResponse Post) :=
  post ← Manager.get pk;
  mret (render "posts/details-post.html" post).

Definition create_post (env : InsertEnv) (request : HttpRequestWithBody)
    : V (Table Post) (HttpResponse PostForm.t) :=
  let form := PostCreateForm (POST_or_None request) in
  if decide (method request = "POST") then
    if PostForm.is_valid choices form then
      PostForm.save choices other env form;;
      mret (redirect "dash")
    else mret (render "posts/create-post.html" (PostForm.full_clean choices form))
  else mret (render "posts/create-post.html" form).

Definition edit_post (env : InsertEnv) (request : HttpRequestWithBody) (pk : Z)
    : V (Table Post) (HttpResponse (PostForm.t * Post)) :=
  post ← Manager.get pk;
  if decide (method request = "POST") then
    let form := PostEditForm (Some (POST request)) post in
    if PostForm.is_valid choices form then
      PostForm.save choices other env form;;
      mret (redirect "dash")
    else
      mret (render "posts/edit-post.html"
              (PostForm.full_clean choices form,
               PostForm.cleaned_instance choices form post))
  else
    let form := PostEditForm None post in
    mret (render "posts/edit-post.html" (form, post)).

Definition delete_post (request : HttpRequestWithBody) (pk : Z)
    : V (Table Post) (HttpResponse (PostForm.t * Post)) :=
  post ← Manager.get pk;
  let form := PostDeleteForm (POST_or_None request) post in
  if decide (method request = "POST") then
    (* [and] evaluates [form.is_valid()] only on a POST *)
    if PostForm.is_valid choices form then
      Manager.delete post;;
      mret (redirect "dash")
    else
      mret (render "posts/delete-post.html"
              (PostForm.full_clean choices form,
               PostForm.cleaned_instance choices form post))
  else mret (render "posts/delete-post.html" (form, post)).

End PostViews.

(** ** Well-formed posts

    What the model forms let into the table: text fields trimmed,
    non-empty, within their [max_length] and free of NUL; a content the
    validator accepts; a language among the choices. *)

Definition clean_text (max_length : option nat) (v : string) : Prop :=
  Str.strip v = v ∧ v ≠ ""
  ∧ match max_length with Some n => String.length v ≤ n | None => True end
  ∧ Str.contains (String "000" "") v = false.

Record valid_post (choices : list string) (p : Post) : Prop := {
  valid_title : clean_text (Some 100) (title p);
  valid_content : clean_text None (content p) ∧ validate_default (content p) = Accepted;
  valid_author : clean_text (Some 30) (author p);
  valid_language :
    language p ∈ choices ∧ language p ≠ "" ∧ String.length (language p) ≤ 20;
}.

(** The post a form submission describes: the text fields trimmed. *)
Definition submitted_post (k created : Z) (t c a l : string) : Post :=
  {| pk := k; title := Str.strip t; content := Str.strip c;
     author := Str.strip a; created_at := created; language := l |}.

(** Form data the model form accepts: the four fields are present and,
    trimmed, make a well-formed post. *)
Definition acceptable (choices : list string) (d : gmap string string) : Prop :=
  ∃ t c a l,
    d !! "title" = Some t ∧ d !! "content" = Some c
    ∧ d !! "author" = Some a ∧ d !! "language" = Some l
    ∧ valid_post choices (submitted_post 0 0 t c a l).

(** [s.isascii()]: every character is below 128.  On such text [Str.lower]
    is [str.lower]: one character at a time, the length unchanged. *)
Fixpoint isascii (s : string) : bool :=
  match s with
  | EmptyString => true
  | String c s' => (nat_of_ascii c <? 128)%nat && isascii s'
  end.

(** A query the [icontains] lookup of the database takes literally: free
    of NUL and no longer than the 100 characters the search form lets
    through.  [dashboard] hands only such queries to the lookup; [index]
    hands over the parameter as it comes, and outside this range what the
    database does with it (a pattern cut at the NUL, an error on a very
    long pattern) is not what the list filter does. *)
Definition plain_query (q : string) : Prop :=
  String.length q ≤ 100 ∧ Str.contains (String "000" "") q = false.

(** A table as the database keeps it: primary keys are unique. *)
Definition unique_pks (db : Table Post) : Prop := NoDup (pk <$> rows db).

Definition ex_choices : list string := ["py"; "js"; "other"].

Definition ex_post : Post :=
  {| pk := 1; title := "Intro"; content := "hello"; author := "ann";
     created_at := 10; language := "py" |}.

Definition ex_db : Table Post := {| rows := [ex_post] |}.

Definition ex_request (m : string) (body : list (string * string)) : HttpRequestWithBody :=
  {| head := {| method := m; GET := ∅ |}; POST := list_to_map body |}.

Definition ex_body : list (string * string) :=
  [("title", " New "); ("content", "fine"); ("author", "bob"); ("language", "js")].

Definition ex_env : InsertEnv := {| env_new_pk := 2; env_now := 20 |}.

(** ** Evaluation on concrete inputs *)

Example lower_ex : Str.lower "Intro to Go_9" = "intro to go_9".
Proof. reflexivity. Qed.

Example contains_ex1 : Str.contains "go" (Str.lower "Intro to Go") = true.
Proof. reflexivity. Qed.

Example contains_ex2 : Str.contains "go" (Str.lower "Rust basics") = false.
Proof. reflexivity. Qed.

Example strip_ex : Str.strip "  a b
 " = "a b".
Proof. reflexivity. Qed.

Example validate_ex1 :
  validate "Some BAD_word_1 here" ["bad_word_1"] =
  Rejected "The text contains bad language".
Proof. reflexivity. Qed.

Example validate_ex2 : validate "fine" ["bad_word_1"; "x"] = Accepted.
Proof. reflexivity. Qed.

Example clean_ex_padded : SearchForm.clean (Some "  Go ") = inr "Go".
Proof. reflexivity. Qed.

Example clean_ex_blank : SearchForm.clean (Some "   ") = inr "".
Proof. reflexivity. Qed.

Example clean_ex_long :
  SearchForm.clean (Some (times "a" 101)) = inl [SearchForm.error_max_length].
Proof. reflexivity. Qed.

Example clean_ex_100 :
  SearchForm.clean (Some (times "a" 100)) = inr (times "a" 100).
Proof. reflexivity. Qed.

Example clean_ex_nul :
  SearchForm.clean (Some (String (ascii_of_nat 0) "a"))
  = inl [SearchForm.error_null_characters_not_allowed].
Proof. reflexivity. Qed.

Example dashboard_ex_post :
  (dashboard {| method := "POST"; GET := {[ "query" := "go" ]} |}
     {| rows := [mk_post 1 "Intro to Go"; mk_post 2 "Rust basics"] |}).1
  = Return {| ctx_posts := [mk_post 1 "Intro to Go"; mk_post 2 "Rust basics"];
              ctx_form := {| SearchForm.data := {[ "query" := "go" ]} |} |}.
Proof. vm_compute. reflexivity. Qed.

Example filter_ex :
  dashboard_filter [mk_post 1 "Intro to Go"; mk_post 2 "Rust basics"] (Some "go")
  = Return [mk_post 1 "Intro to Go"].
Proof. vm_compute. reflexivity. Qed.

(** ** Strings: containment is the substring relation *)

Section StrFacts.
Import Str.

Lemma app_nil_l (s : string) : "" +:+ s = s.
Proof. reflexivity. Qed.

Lemma app_cons (a : ascii) (s t : string) :
  String a s +:+ t = String a (s +:+ t).
Proof. reflexivity. Qed.

Lemma startswith_spec (p s : string) :
  startswith p s = true ↔ ∃ post, s = p +:+ post.
Proof.
  revert s. induction p as [|a p IH]; intros s; simpl.
  - split; [intros _; by exists s | done].
  - destruct s as [|b s].
    + split; [done | intros [post H]; by rewrite app_cons in H].
    + case_decide as Hab.
      * subst b. rewrite IH. split; intros [post H]; exists post.
        -- by rewrite app_cons, H.
        -- rewrite app_cons in H. congruence.
      * split; [done | intros [post H]].
        rewrite app_cons in H. congruence.
Qed.

Lemma contains_spec (sub s : string) :
  contains sub s = true ↔ Substring sub s.
Proof.
  unfold Substring. induction s as [|c s IH]; simpl.
  - rewrite startswith_spec. split.
    + intros [post H]. by exists "", post.
    + intros [[|a pre] [post H]]; [by exists post | by rewrite app_cons in H].
  - rewrite orb_true_iff, startswith_spec, IH. split.
    + intros [[post H] | (pre & post & H)].
      * by exists "", post.
      * exists (String c pre), post. by rewrite app_cons, H.
    + intros [[|a pre] [post H]].
      * left. by exists post.
      * right. rewrite app_cons in H. exists pre, post. congruence.
Qed.

Lemma contains_empty (s : string) : contains "" s = true.
Proof. apply contains_spec. by exists "", s. Qed.

Lemma contains_in_empty (sub : string) :
  contains sub "" = true ↔ sub = "".
Proof.
  destruct sub; simpl; [done | split; discriminate].
Qed.

Lemma lower_eq_empty (s : string) : lower s = "" ↔ s = "".
Proof. destruct s; simpl; split; done. Qed.

Lemma length_lower (s : string) : String.length (lower s) = String.length s.
Proof. induction s; simpl; congruence. Qed.

Lemma length_app (s t : string) :
  String.length (s +:+ t) = String.length s + String.length t.
Proof. induction s as [|a s IH]; [done | rewrite app_cons; simpl; by rewrite IH]. Qed.

Lemma Substring_length (sub s : string) :
  Substring sub s → String.length sub ≤ String.length s.
Proof. intros (pre & post & ->). rewrite !length_app. lia. Qed.

Lemma icontains_spec (value query : string) :
  QuerySet.icontains value query = true ↔ ISubstring query value.
Proof. apply contains_spec. Qed.

Global Instance ISubstring_dec (sub s : string) : Decision (ISubstring sub s).
Proof.
  refine (cast_if (decide (contains (lower sub) (lower s) = true)));
    unfold ISubstring; by rewrite <-contains_spec.
Defined.

End StrFacts.

(** ** The validator *)


Lemma for_check_word {S} (value : string) (ws : list string) (s : S) :
  for_ ws (check_word value) s =
  (if decide (Exists (λ b, Str.ISubstring b value) ws)
   then Rejected bad_language else Accepted, s).
Proof.
  induction ws as [|w ws IH]; cbn [for_].
  - case_decide as He; [by apply Exists_nil in He | done].
  - unfold mbind, M_bind, check_word at 1.
    destruct (Str.contains (Str.lower w) (Str.lower value)) eqn:Hw.
    + rewrite decide_True; [done |].
      apply Exists_cons_hd. by apply contains_spec.
    + unfold mret, M_ret. rewrite IH.
      assert (¬ Str.ISubstring w value) as Hn.
      { intros H%contains_spec. congruence. }
      destruct (decide (Exists _ ws)) as [He|He].
      * by rewrite decide_True by (by apply Exists_cons_tl).
      * rewrite decide_False; [done |].
        intros [?|?]%Exists_cons; contradiction.
Qed.

Lemma call_run (value : string) (self : BadLanguageValidator.t) :
  BadLanguageValidator.__call__ value self =
  (if decide (Exists (λ b, Str.ISubstring b value)
                (BadLanguageValidator.bad_words self))
   then Rejected bad_language else Accepted, self).
Proof. apply (for_check_word value). Qed.

Lemma validate_run (text : string) (blacklist : list string) :
  validate text blacklist =
  if decide (Exists (λ b, Str.ISubstring b text) blacklist)
  then Rejected bad_language else Accepted.
Proof. unfold validate. by rewrite call_run. Qed.

(** C1: [validate(t, blacklist)] is [Rejected("The text contains bad
    language")] exactly when some entry of the blacklist is contained in
    [t] as a case-insensitive substring, and it is [Accepted] exactly when
    no entry is. *)
Theorem C1_validate_iff_contains (t : string) (blacklist : list string) :
  (validate t blacklist = Rejected "The text contains bad language"
     ↔ ∃ b, b ∈ blacklist ∧ Str.ISubstring b t)
  ∧ (validate t blacklist = Accepted
     ↔ ¬ ∃ b, b ∈ blacklist ∧ Str.ISubstring b t).
Proof.
  rewrite validate_run, <-Exists_exists.
  destruct (decide (Exists _ blacklist)) as [He|He].
  - split; [done |]. split; [discriminate | tauto].
  - split; [| done]. split; [discriminate | tauto].
Qed.


Lemma C1_validate_iff_contains_witness :
  validate "An UGLY word" ["nice"; "ugly"] = Rejected "The text contains bad language".
Proof.
  apply (C1_validate_iff_contains "An UGLY word" ["nice"; "ugly"]).
  exists "ugly". split.
  - apply list_elem_of_In. simpl. right. left. reflexivity.
  - exists "an ", " word". reflexivity.
Defined.

(** C4, as stated, fails: with the empty string on the blacklist the empty
    text is rejected, since [""] is contained in [""]. *)
Lemma C4_empty_text_rejected :
  validate "" [""] = Rejected "The text contains bad language"
  ∧ ¬ empty_text_always_accepted.
Proof.
  split; [reflexivity |].
  intros H. specialize (H [""]). discriminate H.
Qed.

(** C4, amended: the empty text is accepted exactly by the blacklists that
    do not hold the empty string, and the empty blacklist accepts every
    text. *)
Theorem C4_edge_cases :
  (∀ blacklist : list string,
     "" ∉ blacklist → validate "" blacklist = Accepted)
  ∧ (∀ blacklist : list string,
     validate "" blacklist = Accepted → "" ∉ blacklist)
  ∧ (∀ t : string, validate t [] = Accepted).
Proof.
  assert (∀ blacklist : list string,
            Exists (λ b, Str.ISubstring b "") blacklist ↔ "" ∈ blacklist) as Hex.
  { intros blacklist. rewrite Exists_exists. split.
    - intros (b & Hb & Hsub).
      apply contains_spec in Hsub. change (Str.lower "") with "" in Hsub.
      apply contains_in_empty, (proj1 (lower_eq_empty b)) in Hsub.
      by rewrite <-Hsub.
    - intros H. exists "". split; [done |]. apply contains_spec. reflexivity. }
  split; [| split].
  - intros blacklist Hnot. rewrite validate_run.
    by rewrite decide_False by (by rewrite Hex).
  - intros blacklist Hacc Hin. rewrite validate_run in Hacc.
    rewrite decide_True in Hacc by (by rewrite Hex). discriminate Hacc.
  - intros t. reflexivity.
Qed.

Lemma C4_edge_cases_witness :
  ("" ∉ ["bad_word_1"; "x"])
  ∧ validate "" ["bad_word_1"; "x"] = Accepted
  ∧ validate "any text" [] = Accepted.
Proof.
  assert ("" ∉ ["bad_word_1"; "x"]) as Hnot.
  { intros H. apply list_elem_of_In in H. simpl in H.
    destruct H as [H|[H|[]]]; discriminate H. }
  split; [exact Hnot |]. split.
  - exact (proj1 C4_edge_cases _ Hnot).
  - exact (proj2 (proj2 C4_edge_cases) "any text").
Defined.

(** C5: without a caller-supplied list the validator holds a fixed list of
    exactly three distinct placeholder words, and with it the text "this
    has bad_word_2 inside" is rejected with "The text contains bad
    language". *)
Theorem C5_default_blacklist :
  default_blacklist = ["bad_word_1"; "bad_word_2"; "bad_word_3"]
  ∧ length default_blacklist = 3
  ∧ NoDup default_blacklist
  ∧ validate_default "this has bad_word_2 inside"
    = Rejected "The text contains bad language"
  ∧ validate "this has bad_word_2 inside" default_blacklist
    = Rejected "The text contains bad language".
Proof.
  split; [reflexivity |]. split; [reflexivity |]. split.
  - apply (bool_decide_unpack _). vm_compute. exact I.
  - split; reflexivity.
Qed.

(** C10: a blacklist that holds the empty string rejects every text, the
    empty text included. *)
Theorem C10_empty_entry_rejects_all (blacklist : list string) (t : string) :
  "" ∈ blacklist →
  validate t blacklist = Rejected "The text contains bad language"
  ∧ validate "" blacklist = Rejected "The text contains bad language".
Proof.
  intros Hin.
  assert (∀ s, Exists (λ b, Str.ISubstring b s) blacklist) as Hex.
  { intros s. apply Exists_exists. exists "". split; [done |].
    apply contains_spec. apply contains_empty. }
  rewrite !validate_run. by rewrite !decide_True by apply Hex.
Qed.

Lemma C10_empty_entry_rejects_all_witness :
  validate "hello" ["bad_word_1"; ""] = Rejected "The text contains bad language"
  ∧ validate "" ["bad_word_1"; ""] = Rejected "The text contains bad language".
Proof.
  apply (C10_empty_entry_rejects_all ["bad_word_1"; ""] "hello").
  apply list_elem_of_In. simpl. right. left. reflexivity.
Defined.

(** ** The search form *)

Lemma is_valid_clean (form : SearchForm.t) :
  SearchForm.is_valid form =
  match SearchForm.clean (SearchForm.data form !! "query") with
  | inl _ => false
  | inr _ => true
  end.
Proof.
  unfold SearchForm.is_valid, SearchForm.errors.
  destruct (SearchForm.clean _) as [e|v].
  - apply bool_decide_eq_false. apply map_non_empty_singleton.
  - by apply bool_decide_eq_true.
Qed.

(** What the field accepts: the trimmed value, when it is empty or has at
    most 100 characters and no NUL among them. *)
Lemma clean_accepts (q : string) :
  String.length (Str.strip q) ≤ 100 →
  Str.contains (String "000" "") (Str.strip q) = false →
  SearchForm.clean (Some q) = inr (Str.strip q).
Proof.
  intros Hlen Hnul.
  unfold SearchForm.clean, SearchForm.run_validators, SearchForm.to_python,
    SearchForm.required.
  rewrite andb_false_r. case_decide; [done |].
  rewrite decide_False by (unfold SearchForm.max_length; lia).
  by rewrite Hnul.
Qed.

Lemma malformed_iff (q : string) :
  malformed q ↔
  Str.strip q ≠ "" ∧
  (100 < String.length (Str.strip q)
   ∨ Str.contains (String "000" "") (Str.strip q) = true).
Proof.
  unfold malformed, SearchForm.clean, SearchForm.run_validators,
    SearchForm.to_python, SearchForm.required, SearchForm.max_length.
  rewrite andb_false_r. split.
  - intros [e He]. case_decide; [done |]. split; [done |].
    case_decide; [by left |].
    destruct (Str.contains _ _); [by right | done].
  - intros [Hne Hor]. rewrite decide_False by done.
    destruct Hor as [Hlen|Hnul].
    + rewrite decide_True by done. by eexists.
    + rewrite Hnul. case_decide; by eexists.
Qed.

Lemma clean_absent : SearchForm.clean None = inr "".
Proof. reflexivity. Qed.

Lemma clean_empty : SearchForm.clean (Some "") = inr "".
Proof. reflexivity. Qed.

Lemma clean_value (value : option string) (v : string) :
  SearchForm.clean value = inr v → v = SearchForm.to_python value.
Proof.
  unfold SearchForm.clean. repeat case_match; congruence.
Qed.

(** ** The views *)

Lemma filter_icontains_ISubstring {A} `{Titled A} (query : string) (qs : list A) :
  QuerySet.filter_title__icontains query qs =
  filter (λ r, Str.ISubstring query (title_of r)) qs.
Proof.
  unfold QuerySet.filter_title__icontains. apply list_filter_iff.
  intros r. apply icontains_spec.
Qed.

Lemma filter_icontains_empty {A} `{Titled A} (qs : list A) :
  QuerySet.filter_title__icontains "" qs = qs.
Proof.
  unfold QuerySet.filter_title__icontains.
  induction qs as [|r qs IH]; [done |].
  rewrite filter_cons_True by apply contains_empty. by rewrite IH.
Qed.

Lemma filter_icontains_idemp {A} `{Titled A} (query : string) (qs : list A) :
  QuerySet.filter_title__icontains query
    (QuerySet.filter_title__icontains query qs) =
  QuerySet.filter_title__icontains query qs.
Proof.
  unfold QuerySet.filter_title__icontains. rewrite list_filter_filter.
  apply list_filter_iff. tauto.
Qed.

Lemma filter_icontains_sublist {A} `{Titled A} (query : string) (qs : list A) :
  QuerySet.filter_title__icontains query qs `sublist_of` qs.
Proof. apply sublist_filter. Qed.


Lemma dashboard_run (request : HttpRequest) (db : Table Post) :
  dashboard request db =
  (Return {| ctx_posts := dashboard_posts request (rows db);
             ctx_form := {| SearchForm.data := GET request |} |}, db).
Proof.
  unfold dashboard, dashboard_posts, mbind, M_bind, QuerySet.all.
  case_decide; [| done].
  rewrite is_valid_clean. unfold SearchForm.cleaned_data. simpl.
  destruct (SearchForm.clean _) as [e|v]; [done |].
  unfold getitem. by rewrite lookup_singleton_eq.
Qed.

Lemma search_request_lookup (key : string) (query : option string) :
  GET (search_request key query) !! key = query.
Proof.
  destruct query as [q|]; simpl; [apply lookup_singleton_eq | apply lookup_empty].
Qed.

Lemma dashboard_filter_run (records : list Post) (query : option string) :
  dashboard_filter records query =
  Return match SearchForm.clean query with
         | inr q => QuerySet.filter_title__icontains q records
         | inl _ => records
         end.
Proof.
  unfold dashboard_filter. rewrite dashboard_run.
  unfold dashboard_posts. rewrite search_request_lookup.
  by rewrite decide_True by done.
Qed.

Lemma index_run {Task} `{Titled Task} (request : HttpRequest) (db : Table Task) :
  index request db =
  (Return {| ctx_title_filter := default "" (GET request !! "title_filter");
             ctx_tasks := QuerySet.filter_title__icontains
                            (default "" (GET request !! "title_filter")) (rows db) |},
   db).
Proof. reflexivity. Qed.

Lemma index_filter_run {Task} `{Titled Task} (records : list Task)
    (query : option string) :
  index_filter records query =
  Return (QuerySet.filter_title__icontains (default "" query) records).
Proof.
  unfold index_filter. rewrite index_run.
  by rewrite search_request_lookup.
Qed.

(** C2, as stated, fails: a query of 101 characters is refused by the
    form ([max_length=100]), so [dashboard] keeps every post, also one
    whose title does not contain the query. *)
Lemma C2_overlong_query_keeps_all :
  dashboard_filter [mk_post 1 "x"] (Some (times "a" 101)) = Return [mk_post 1 "x"]
  ∧ ¬ Str.ISubstring (times "a" 101) (title (mk_post 1 "x"))
  ∧ ¬ filter_exact_for_every_query.
Proof.
  assert (¬ Str.ISubstring (times "a" 101) (title (mk_post 1 "x"))) as Hn.
  { intros H%contains_spec. vm_compute in H. discriminate H. }
  split; [by vm_compute |]. split; [exact Hn |].
  intros Hall.
  destruct (Hall [mk_post 1 "x"] (times "a" 101)) as (out & Hrun & _ & Hiff);
    [discriminate |].
  vm_compute in Hrun. injection Hrun as <-.
  apply Hn, (Hiff (mk_post 1 "x")); apply list_elem_of_here.
Qed.

(** C2, amended: for every query the search form accepts (trimmed of
    surrounding whitespace it has at most 100 characters, none of them
    NUL), [dashboard] returns exactly the records whose case-folded title
    contains the case-folded trimmed query, as an order-preserving
    subsequence of the input. *)
Theorem C2_filter_exact (records : list Post) (q : string) :
  String.length (Str.strip q) ≤ 100 →
  Str.contains (String "000" "") (Str.strip q) = false →
  ∃ out, dashboard_filter records (Some q) = Return out
    ∧ out = filter (λ r, Str.ISubstring (Str.strip q) (title r)) records
    ∧ out `sublist_of` records
    ∧ ∀ r, r ∈ out ↔ r ∈ records ∧ Str.ISubstring (Str.strip q) (title r).
Proof.
  intros Hlen Hnul. eexists. split; [| split; [reflexivity |]].
  - rewrite dashboard_filter_run, (clean_accepts q Hlen Hnul).
    by rewrite (filter_icontains_ISubstring (A:=Post)).
  - split; [apply sublist_filter |].
    intros r. rewrite list_elem_of_filter. tauto.
Qed.

Lemma C2_filter_exact_witness :
  dashboard_filter [mk_post 1 "Intro to Go"; mk_post 2 "Rust basics"] (Some " GO ")
  = Return [mk_post 1 "Intro to Go"].
Proof.
  destruct (C2_filter_exact
              [mk_post 1 "Intro to Go"; mk_post 2 "Rust basics"] " GO ")
    as (out & Hrun & Hout & _).
  - vm_compute. lia.
  - reflexivity.
  - rewrite Hrun, Hout. reflexivity.
Defined.

(** C3: the empty query is the identity: [filter(records, "")] is
    [records], unchanged and in the original order (for [dashboard] and
    for [index]). *)
Theorem C3_empty_query_identity :
  (∀ records : list Post, dashboard_filter records (Some "") = Return records)
  ∧ (∀ (Task : Type) (T : Titled Task) (records : list Task),
       index_filter records (Some "") = Return records).
Proof.
  split.
  - intros records. rewrite dashboard_filter_run, clean_empty.
    by rewrite (filter_icontains_empty (A:=Post)).
  - intros Task T records. rewrite index_filter_run. simpl.
    by rewrite filter_icontains_empty.
Qed.

(** C6: the filter never fails: for every record sequence and every
    query, absent or malformed ones included, [dashboard] (on any request)
    returns a result; an absent query and a query the form refuses
    exclude nothing, the full record sequence is returned. *)
Theorem C6_filter_never_fails :
  (∀ (request : HttpRequest) (db : Table Post),
     ∃ ctx, (dashboard request db).1 = Return ctx)
  ∧ (∀ (records : list Post) (query : option string),
     ∃ out, dashboard_filter records query = Return out)
  ∧ (∀ records : list Post, dashboard_filter records None = Return records)
  ∧ (∀ (records : list Post) (q : string),
     malformed q → dashboard_filter records (Some q) = Return records).
Proof.
  repeat split.
  - intros request db. rewrite dashboard_run. by eexists.
  - intros records query. rewrite dashboard_filter_run. by eexists.
  - intros records. rewrite dashboard_filter_run, clean_absent.
    by rewrite (filter_icontains_empty (A:=Post)).
  - intros records q [e He]. by rewrite dashboard_filter_run, He.
Qed.

Lemma C6_filter_never_fails_witness :
  malformed (times "a" 101)
  ∧ dashboard_filter [mk_post 1 "x"; mk_post 2 "y"] (Some (times "a" 101))
    = Return [mk_post 1 "x"; mk_post 2 "y"].
Proof.
  assert (malformed (times "a" 101)) as Hm.
  { exists [SearchForm.error_max_length]. reflexivity. }
  split; [exact Hm |].
  exact (proj2 (proj2 (proj2 C6_filter_never_fails)) _ _ Hm).
Defined.

(** C7: filtering twice with one query is filtering once:
    [filter(filter(records, q), q) = filter(records, q)], for every query
    [dashboard] can receive, absent, refused or accepted. *)
Theorem C7_filter_idempotent (records : list Post) (query : option string) :
  ∃ out, dashboard_filter records query = Return out
    ∧ dashboard_filter out query = Return out.
Proof.
  eexists. split; [apply dashboard_filter_run |].
  rewrite dashboard_filter_run.
  destruct (SearchForm.clean query) as [e|q]; [done |].
  by rewrite (filter_icontains_idemp (A:=Post)).
Qed.

(** C8: validation and filtering are read-only: calling the validator
    leaves the validator and its word list as they were, [dashboard] and
    [index] leave the table as it was, and every record they return is a
    record of the input, with all its fields. *)
Theorem C8_read_only :
  (∀ (value : string) (self : BadLanguageValidator.t),
     (BadLanguageValidator.__call__ value self).2 = self)
  ∧ (∀ (request : HttpRequest) (db : Table Post),
     (dashboard request db).2 = db)
  ∧ (∀ (Task : Type) (T : Titled Task) (request : HttpRequest) (db : Table Task),
     (index request db).2 = db)
  ∧ (∀ (request : HttpRequest) (db : Table Post) (ctx : DashboardContext)
       (r : Post),
     (dashboard request db).1 = Return ctx → r ∈ ctx_posts ctx → r ∈ rows db)
  ∧ (∀ (Task : Type) (T : Titled Task) (request : HttpRequest)
       (db : Table Task) (ctx : IndexContext Task) (r : Task),
     (index request db).1 = Return ctx → r ∈ ctx_tasks ctx → r ∈ rows db).
Proof.
  repeat split.
  - intros value self. by rewrite call_run.
  - intros request db. by rewrite dashboard_run.
  - intros request db ctx r. rewrite dashboard_run. intros [= <-]. simpl.
    unfold dashboard_posts. repeat case_match; try done.
    intros Hr. eapply elem_of_sublist; [exact Hr |].
    apply (filter_icontains_sublist (A:=Post)).
  - intros Task T request db ctx r. rewrite index_run. intros [= <-]. simpl.
    intros Hr. eapply elem_of_sublist; [exact Hr |].
    apply filter_icontains_sublist.
Qed.

Lemma C8_read_only_witness :
  mk_post 1 "Intro to Go" ∈ [mk_post 1 "Intro to Go"; mk_post 2 "Rust basics"].
Proof.
  apply (proj1 (proj2 (proj2 (proj2 C8_read_only)))
           (search_request "query" (Some "go"))
           {| rows := [mk_post 1 "Intro to Go"; mk_post 2 "Rust basics"] |}
           {| ctx_posts := [mk_post 1 "Intro to Go"];
              ctx_form := {| SearchForm.data := {[ "query" := "go" ]} |} |}).
  - vm_compute. reflexivity.
  - apply list_elem_of_In. simpl. left. reflexivity.
Defined.

(** C9: both operations are deterministic: an invocation leaves nothing
    behind that a later one could see, so calling the validator again, on
    the validator the first call left, gives the same outcome, and so does
    [dashboard] on the table the first call left; the posts [dashboard]
    selects depend on the request through its method and its "query"
    parameter only; and the result keeps the records in the relative
    order of the input. *)
Theorem C9_deterministic :
  (∀ (value : string) (self : BadLanguageValidator.t),
     (BadLanguageValidator.__call__ value
        (BadLanguageValidator.__call__ value self).2).1
     = (BadLanguageValidator.__call__ value self).1)
  ∧ (∀ (request : HttpRequest) (db : Table Post),
     (dashboard request (dashboard request db).2).1 = (dashboard request db).1)
  ∧ (∀ (r1 r2 : HttpRequest) (db : Table Post),
     method r1 = method r2 →
     GET r1 !! "query" = GET r2 !! "query" →
     outcome_map ctx_posts (dashboard r1 db).1
     = outcome_map ctx_posts (dashboard r2 db).1)
  ∧ (∀ (records : list Post) (query : option string),
     ∃ out, dashboard_filter records query = Return out
       ∧ out `sublist_of` records).
Proof.
  split; [| split; [| split]].
  - intros value self. by rewrite !call_run.
  - intros request db. by rewrite !dashboard_run.
  - intros r1 r2 db Hm Hq. rewrite !dashboard_run. cbn [fst outcome_map ctx_posts].
    unfold dashboard_posts. by rewrite Hm, Hq.
  - intros records query. eexists. split; [apply dashboard_filter_run |].
    destruct (SearchForm.clean query); [done |].
    apply (filter_icontains_sublist (A:=Post)).
Qed.

Lemma C9_deterministic_witness :
  outcome_map ctx_posts
    (dashboard {| method := "GET"; GET := {[ "query" := "go" ]} |}
       {| rows := [mk_post 1 "Intro to Go"; mk_post 2 "Rust basics"] |}).1
  = outcome_map ctx_posts
      (dashboard {| method := "GET"; GET := {[ "query" := "go"; "page" := "2" ]} |}
         {| rows := [mk_post 1 "Intro to Go"; mk_post 2 "Rust basics"] |}).1.
Proof.
  apply (proj1 (proj2 (proj2 C9_deterministic))); [reflexivity |].
  by vm_compute.
Defined.

(** ** Further properties of the validator *)

Lemma lower_char_idemp (c : ascii) :
  Str.lower_char (Str.lower_char c) = Str.lower_char c.
Proof. by destruct c as [[] [] [] [] [] [] [] []]. Qed.

Lemma lower_idemp (s : string) : Str.lower (Str.lower s) = Str.lower s.
Proof.
  induction s as [|c s IH]; [done |]. simpl. by rewrite lower_char_idemp, IH.
Qed.

Lemma lower_app (s t : string) :
  Str.lower (s +:+ t) = Str.lower s +:+ Str.lower t.
Proof.
  induction s as [|c s IH]; [done |].
  rewrite app_cons. simpl. by rewrite IH, app_cons.
Qed.

Lemma string_app_assoc (s t u : string) : (s +:+ t) +:+ u = s +:+ t +:+ u.
Proof.
  induction s as [|c s IH]; [done |]. by rewrite !app_cons, IH.
Qed.

Lemma Substring_refl (s : string) : Str.Substring s s.
Proof.
  exists "", "". rewrite app_nil_l.
  induction s as [|c s IH]; [done |]. by rewrite app_cons, <-IH.
Qed.

Lemma Substring_trans (a b c : string) :
  Str.Substring a b → Str.Substring b c → Str.Substring a c.
Proof.
  intros (p1 & q1 & ->) (p2 & q2 & ->).
  exists (p2 +:+ p1), (q1 +:+ q2). by rewrite !string_app_assoc.
Qed.

Lemma Substring_app (s pre post : string) :
  Str.Substring s (pre +:+ s +:+ post).
Proof. by exists pre, post. Qed.

Lemma ISubstring_trans (a b c : string) :
  Str.ISubstring a b → Str.ISubstring b c → Str.ISubstring a c.
Proof. apply Substring_trans. Qed.

Lemma validate_accepted_iff (t : string) (blacklist : list string) :
  validate t blacklist = Accepted ↔
  Forall (λ b, ¬ Str.ISubstring b t) blacklist.
Proof.
  rewrite validate_run.
  destruct (decide (Exists (λ b, Str.ISubstring b t) blacklist)) as [He|He].
  - split; [done |]. intros Hall. apply Exists_exists in He as (b & Hb & Hs).
    rewrite Forall_forall in Hall. by destruct (Hall b Hb).
  - split; [intros _ | done]. apply Forall_forall. intros b Hb Hs.
    apply He, Exists_exists. eauto.
Qed.

Lemma validate_rejected_iff (t : string) (blacklist : list string) :
  validate t blacklist = Rejected bad_language ↔
  Exists (λ b, Str.ISubstring b t) blacklist.
Proof. rewrite validate_run. case_decide; split; done. Qed.

Lemma validate_cases (t : string) (blacklist : list string) :
  validate t blacklist = Accepted ∨ validate t blacklist = Rejected bad_language.
Proof. rewrite validate_run. case_decide; auto. Qed.

(** X1: the validator looks at letters only up to case: texts that agree
    after case folding, checked against word lists that agree entry by
    entry after case folding, get the same verdict. *)
Theorem X1_validate_case_insensitive (t1 t2 : string) (b1 b2 : list string) :
  Str.lower t1 = Str.lower t2 →
  Str.lower <$> b1 = Str.lower <$> b2 →
  validate t1 b1 = validate t2 b2.
Proof.
  intros Ht Hb. rewrite !validate_run.
  assert (Exists (λ b, Str.ISubstring b t1) b1
          ↔ Exists (λ b, Str.ISubstring b t2) b2) as Hiff.
  { unfold Str.ISubstring. rewrite Ht. clear Ht.
    revert b2 Hb. induction b1 as [|x b1 IH]; intros [|y b2] Hb;
      try discriminate Hb.
    - by rewrite !Exists_nil.
    - injection Hb as Hxy Hb. rewrite !Exists_cons, Hxy. by rewrite (IH b2 Hb). }
  destruct (decide (Exists _ b1)), (decide (Exists _ b2)); tauto || done.
Qed.

Lemma X1_validate_case_insensitive_witness :
  validate "Some BAD_WORD_1 here" ["Bad_Word_1"]
  = validate "some bad_word_1 HERE" ["bad_word_1"].
Proof.
  apply X1_validate_case_insensitive; reflexivity.
Defined.

(** X2: only the set of words matters: two word lists with the same
    members, in any order and with any repetitions, give the same verdict
    on every text; the early exit of the loop does not show. *)
Theorem X2_validate_set_of_words (t : string) (b1 b2 : list string) :
  (∀ b, b ∈ b1 ↔ b ∈ b2) → validate t b1 = validate t b2.
Proof.
  intros Hset. rewrite !validate_run.
  assert (Exists (λ b, Str.ISubstring b t) b1
          ↔ Exists (λ b, Str.ISubstring b t) b2) as Hiff.
  { rewrite !Exists_exists. split; intros (b & Hb & Hs); exists b;
      (split; [by apply Hset | done]). }
  destruct (decide (Exists _ b1)), (decide (Exists _ b2)); tauto || done.
Qed.

Lemma X2_validate_set_of_words_witness :
  validate "it is ugly" ["ugly"; "bad"; "ugly"] = validate "it is ugly" ["bad"; "ugly"].
Proof.
  apply X2_validate_set_of_words. intros b.
  rewrite !list_elem_of_In. simpl. tauto.
Defined.

(** X3: joining two word lists accepts exactly the texts that both lists
    accept, and rejects as soon as one of them rejects. *)
Theorem X3_validate_app (t : string) (b1 b2 : list string) :
  (validate t (b1 ++ b2) = Accepted
     ↔ validate t b1 = Accepted ∧ validate t b2 = Accepted)
  ∧ (validate t (b1 ++ b2) = Rejected "The text contains bad language"
     ↔ validate t b1 = Rejected "The text contains bad language"
       ∨ validate t b2 = Rejected "The text contains bad language").
Proof.
  split.
  - rewrite !validate_accepted_iff. apply Forall_app.
  - rewrite !(validate_rejected_iff t). apply Exists_app.
Qed.

(** X4: a rejected text cannot be made acceptable by writing more around
    it: for ASCII text and ASCII words, if [t] is rejected, so is every
    text that contains [t]; hence every part of an accepted text is
    accepted. *)
Theorem X4_validate_superstring (t pre post : string) (blacklist : list string) :
  isascii pre = true → isascii t = true → isascii post = true →
  Forall (λ b, isascii b = true) blacklist →
  (validate t blacklist = Rejected "The text contains bad language" →
   validate (pre +:+ t +:+ post) blacklist
   = Rejected "The text contains bad language")
  ∧ (validate (pre +:+ t +:+ post) blacklist = Accepted →
     validate t blacklist = Accepted).
Proof.
  intros _ _ _ _.
  assert (∀ b, Str.ISubstring b t → Str.ISubstring b (pre +:+ t +:+ post)) as Hup.
  { intros b Hb. unfold Str.ISubstring in *.
    eapply Substring_trans; [exact Hb |].
    rewrite !lower_app. apply Substring_app. }
  split.
  - rewrite !(validate_rejected_iff _ blacklist).
    intros He. eapply Exists_impl; [exact He |]. intros b. apply Hup.
  - rewrite !validate_accepted_iff.
    intros Hall. eapply Forall_impl; [exact Hall |]. intros b Hn Hb.
    by apply Hn, Hup.
Qed.

Lemma X4_validate_superstring_witness :
  validate ("well, " +:+ "Bad_Word_3" +:+ " it is") default_blacklist
  = Rejected "The text contains bad language".
Proof.
  apply (X4_validate_superstring "Bad_Word_3" "well, " " it is" default_blacklist);
    try reflexivity.
  repeat (apply Forall_cons; split; [reflexivity |]). apply Forall_nil_2.
Defined.

(** X5: an ASCII text shorter than every word of an ASCII word list is
    accepted. *)
Theorem X5_validate_short_text (t : string) (blacklist : list string) :
  isascii t = true →
  Forall (λ b, isascii b = true) blacklist →
  Forall (λ b, String.length t < String.length b) blacklist →
  validate t blacklist = Accepted.
Proof.
  intros _ _ Hlen. apply validate_accepted_iff.
  eapply Forall_impl; [exact Hlen |]. intros b Hb Hsub.
  apply Substring_length in Hsub. rewrite !length_lower in Hsub. simpl in Hb. lia.
Qed.

Lemma X5_validate_short_text_witness : validate "bad_word" default_blacklist = Accepted.
Proof.
  apply X5_validate_short_text.
  - reflexivity.
  - repeat (apply Forall_cons; split; [reflexivity |]). apply Forall_nil_2.
  - repeat (apply Forall_cons; split; [simpl; lia |]). apply Forall_nil_2.
Defined.

(** ** Further properties of the search form and the title filter *)

Lemma lstrip_head (s : string) :
  Str.lstrip s = "" ∨ ∃ c s', Str.lstrip s = String c s' ∧ Str.isspace c = false.
Proof.
  induction s as [|c s IH]; [by left |]. simpl.
  destruct (Str.isspace c) eqn:Hc; [done |]. right. by exists c, s.
Qed.

Lemma lstrip_nonspace (c : ascii) (s : string) :
  Str.isspace c = false → Str.lstrip (String c s) = String c s.
Proof. intros Hc. simpl. by rewrite Hc. Qed.

Lemma rstrip_cons_nonspace (c : ascii) (s : string) :
  Str.isspace c = false → ∃ r, Str.rstrip (String c s) = String c r.
Proof.
  intros Hc. simpl. destruct (Str.rstrip s) as [|a r].
  - rewrite Hc. by exists "".
  - by eexists.
Qed.

Lemma rstrip_idemp (s : string) : Str.rstrip (Str.rstrip s) = Str.rstrip s.
Proof.
  induction s as [|c s IH]; [done |]. simpl.
  destruct (Str.rstrip s) as [|a r] eqn:Hr.
  - destruct (Str.isspace c) eqn:Hc; [done |]. simpl. by rewrite Hc.
  - change (Str.rstrip (String c (String a r))) with
      (match Str.rstrip (String a r) with
       | "" => if Str.isspace c then "" else String c ""
       | r' => String c r'
       end).
    by rewrite IH.
Qed.

Lemma strip_rstrip (s : string) : Str.rstrip (Str.strip s) = Str.strip s.
Proof. apply rstrip_idemp. Qed.

Lemma strip_lstrip (s : string) : Str.lstrip (Str.strip s) = Str.strip s.
Proof.
  unfold Str.strip. destruct (lstrip_head s) as [->|(c & s' & -> & Hc)]; [done |].
  destruct (rstrip_cons_nonspace c s' Hc) as [r ->].
  by apply lstrip_nonspace.
Qed.

Lemma strip_idemp (s : string) : Str.strip (Str.strip s) = Str.strip s.
Proof.
  unfold Str.strip at 1. rewrite strip_lstrip. apply strip_rstrip.
Qed.

Lemma lstrip_blank (s : string) : blank s = true → Str.lstrip s = "".
Proof.
  induction s as [|c s IH]; [done |]. simpl.
  intros [Hc Hs]%andb_true_iff. rewrite Hc. auto.
Qed.

Lemma strip_blank (s : string) : blank s = true → Str.strip s = "".
Proof. intros H. unfold Str.strip. by rewrite lstrip_blank. Qed.

Lemma clean_inr (value : option string) (q : string) :
  SearchForm.clean value = inr q ↔
  q = SearchForm.to_python value
  ∧ (q = "" ∨ (String.length q ≤ 100 ∧ Str.contains (String "000" "") q = false)).
Proof.
  unfold SearchForm.clean, SearchForm.run_validators, SearchForm.required,
    SearchForm.max_length.
  rewrite andb_false_r. split.
  - intros H. repeat case_match; simplify_eq; (split; [done |]); auto.
    right. split; [lia | done].
  - intros [-> Hor]. case_decide as He; [by rewrite He |].
    destruct Hor as [?|[Hlen Hnul]]; [done |].
    rewrite decide_False by lia. by rewrite Hnul.
Qed.

(** X7: a query the form accepts comes out normalised: no whitespace at
    either end, at most 100 characters, no NUL character; and cleaning is
    idempotent, the cleaned query is accepted as it is. *)
Theorem X7_cleaned_query_normal (value : option string) (q : string) :
  SearchForm.clean value = inr q →
  Str.lstrip q = q ∧ Str.rstrip q = q
  ∧ String.length q ≤ 100
  ∧ Str.contains (String "000" "") q = false
  ∧ SearchForm.clean (Some q) = inr q.
Proof.
  intros [Hq Hor]%clean_inr.
  assert (Str.strip q = q) as Hstrip.
  { rewrite Hq. destruct value as [v|]; [apply strip_idemp | done]. }
  assert (Str.lstrip q = q) as Hl by (by rewrite <-Hstrip, strip_lstrip).
  assert (Str.rstrip q = q) as Hr by (by rewrite <-Hstrip, strip_rstrip).
  split; [done |]. split; [done |].
  destruct Hor as [->|[Hlen Hnul]]; [by repeat split; rewrite ?clean_empty; simpl; try lia |].
  repeat split; try done.
  apply clean_inr. simpl. rewrite Hstrip. auto.
Qed.

Lemma X7_cleaned_query_normal_witness :
  SearchForm.clean (Some "Intro to") = inr "Intro to".
Proof.
  apply (X7_cleaned_query_normal (Some "  Intro to  ") "Intro to").
  reflexivity.
Defined.

Lemma filter_icontains_narrow {A} `{Titled A} (q1 q2 : string) (qs : list A) :
  Str.ISubstring q1 q2 →
  QuerySet.filter_title__icontains q2 (QuerySet.filter_title__icontains q1 qs)
  = QuerySet.filter_title__icontains q2 qs.
Proof.
  intros Hsub. rewrite !filter_icontains_ISubstring, list_filter_filter.
  apply list_filter_iff. intros r. split; [tauto |].
  intros H2. split; [done |]. by eapply ISubstring_trans.
Qed.

Lemma filter_icontains_lower {A} `{Titled A} (q1 q2 : string) (qs : list A) :
  Str.lower q1 = Str.lower q2 →
  QuerySet.filter_title__icontains q1 qs = QuerySet.filter_title__icontains q2 qs.
Proof.
  intros Hq. unfold QuerySet.filter_title__icontains, QuerySet.icontains.
  by rewrite Hq.
Qed.

(** X8: [dashboard] sees the query only through its trimmed form: queries
    that agree after trimming give the same result, and a query of
    whitespace only selects every record, like the empty query. *)
Theorem X8_dashboard_trims_query (records : list Post) (q1 q2 : string) :
  (Str.strip q1 = Str.strip q2 →
   dashboard_filter records (Some q1) = dashboard_filter records (Some q2))
  ∧ (blank q1 = true → dashboard_filter records (Some q1) = Return records).
Proof.
  assert (∀ a b, Str.strip a = Str.strip b →
            SearchForm.clean (Some a) = SearchForm.clean (Some b)) as Hclean.
  { intros a b Hab. unfold SearchForm.clean, SearchForm.to_python. by rewrite Hab. }
  split.
  - intros Hq. by rewrite !dashboard_filter_run, (Hclean q1 q2 Hq).
  - intros Hb. rewrite dashboard_filter_run, (Hclean q1 "").
    + by rewrite clean_empty, (filter_icontains_empty (A:=Post)).
    + by rewrite strip_blank.
Qed.

Lemma X8_dashboard_trims_query_witness :
  dashboard_filter [mk_post 1 "Intro to Go"; mk_post 2 "Rust basics"] (Some "   ")
  = Return [mk_post 1 "Intro to Go"; mk_post 2 "Rust basics"].
Proof.
  apply (X8_dashboard_trims_query _ "   " ""). reflexivity.
Defined.

(** X9: a longer query narrows the result: when the query [q1] is
    contained, up to case, in [q2], searching [q2] among the results for
    [q1] gives the results for [q2], which therefore are a subsequence of
    those for [q1].  For [index] the queries are plain ones, as given;
    for [dashboard] they are the cleaned ones. *)
Theorem X9_longer_query_narrows :
  (∀ (Task : Type) (T : Titled Task) (records : list Task) (q1 q2 : string),
     plain_query q1 → plain_query q2 →
     Str.ISubstring q1 q2 →
     ∃ out1 out2,
       index_filter records (Some q1) = Return out1
       ∧ index_filter records (Some q2) = Return out2
       ∧ index_filter out1 (Some q2) = Return out2
       ∧ out2 `sublist_of` out1)
  ∧ (∀ (records : list Post) (q1 q2 c1 c2 : string),
     SearchForm.clean (Some q1) = inr c1 →
     SearchForm.clean (Some q2) = inr c2 →
     Str.ISubstring c1 c2 →
     ∃ out1 out2,
       dashboard_filter records (Some q1) = Return out1
       ∧ dashboard_filter records (Some q2) = Return out2
       ∧ dashboard_filter out1 (Some q2) = Return out2
       ∧ out2 `sublist_of` out1).
Proof.
  split.
  - intros Task T records q1 q2 _ _ Hsub. do 2 eexists.
    rewrite !index_filter_run. simpl. split; [done |]. split; [done |].
    split; [by rewrite filter_icontains_narrow |].
    rewrite <-(filter_icontains_narrow q1 q2) by done.
    apply filter_icontains_sublist.
  - intros records q1 q2 c1 c2 H1 H2 Hsub. do 2 eexists.
    rewrite !dashboard_filter_run, H1, H2. split; [done |]. split; [done |].
    split; [by rewrite (filter_icontains_narrow (A:=Post)) |].
    rewrite <-(filter_icontains_narrow (A:=Post) c1 c2) by done.
    apply (filter_icontains_sublist (A:=Post)).
Qed.

Lemma X9_longer_query_narrows_witness :
  (∃ out1 out2,
     index_filter [mk_post 1 "Intro to Go"; mk_post 2 "Going on"; mk_post 3 "Rust"]
       (Some "go") = Return out1
     ∧ index_filter [mk_post 1 "Intro to Go"; mk_post 2 "Going on"; mk_post 3 "Rust"]
       (Some "GOIN") = Return out2
     ∧ index_filter out1 (Some "GOIN") = Return out2
     ∧ out2 `sublist_of` out1)
  ∧ (∃ out1 out2,
     dashboard_filter [mk_post 1 "Intro to Go"; mk_post 2 "Going on"; mk_post 3 "Rust"]
       (Some "go") = Return out1
     ∧ dashboard_filter [mk_post 1 "Intro to Go"; mk_post 2 "Going on"; mk_post 3 "Rust"]
       (Some "GOIN ") = Return out2
     ∧ dashboard_filter out1 (Some "GOIN ") = Return out2
     ∧ out2 `sublist_of` out1).
Proof.
  split.
  - apply (proj1 X9_longer_query_narrows Post Post_titled _ "go" "GOIN").
    + split; [simpl; lia | reflexivity].
    + split; [simpl; lia | reflexivity].
    + exists "", "in". reflexivity.
  - apply (proj2 X9_longer_query_narrows _ "go" "GOIN " "go" "GOIN");
      [reflexivity | reflexivity |].
    exists "", "in". reflexivity.
Defined.

(** X11: the search ignores case on both sides: queries that agree after
    case folding select the same records ([index]: the queries as given,
    [dashboard]: the cleaned queries), and whether a record is selected
    depends on its title only up to case. *)
Theorem X11_filter_case_insensitive :
  (∀ (Task : Type) (T : Titled Task) (records : list Task) (q1 q2 : string),
     Str.lower q1 = Str.lower q2 →
     index_filter records (Some q1) = index_filter records (Some q2))
  ∧ (∀ (records : list Post) (q1 q2 c1 c2 : string),
     SearchForm.clean (Some q1) = inr c1 →
     SearchForm.clean (Some q2) = inr c2 →
     Str.lower c1 = Str.lower c2 →
     dashboard_filter records (Some q1) = dashboard_filter records (Some q2))
  ∧ (∀ (q : string) (r1 r2 : Post),
     Str.lower (title r1) = Str.lower (title r2) →
     QuerySet.icontains (title r1) q = QuerySet.icontains (title r2) q).
Proof.
  split; [| split].
  - intros Task T records q1 q2 Hq. rewrite !index_filter_run. simpl.
    by rewrite (filter_icontains_lower q1 q2).
  - intros records q1 q2 c1 c2 H1 H2 Hc. rewrite !dashboard_filter_run, H1, H2.
    by rewrite (filter_icontains_lower (A:=Post) c1 c2).
  - intros q r1 r2 Ht. unfold QuerySet.icontains. by rewrite Ht.
Qed.

Lemma X11_filter_case_insensitive_witness :
  dashboard_filter [mk_post 1 "Intro to Go"; mk_post 2 "Rust basics"] (Some "GO")
  = dashboard_filter [mk_post 1 "Intro to Go"; mk_post 2 "Rust basics"] (Some " go").
Proof.
  apply (proj1 (proj2 X11_filter_case_insensitive) _ "GO" " go" "GO" "go");
    reflexivity.
Defined.

(** X27: [index] on a plain query (at most 100 characters, no NUL), taken
    exactly as given, without trimming: it returns exactly the tasks whose
    case-folded title contains the case-folded query, as an
    order-preserving subsequence of the table. *)
Theorem X27_index_filter_exact (Task : Type) (T : Titled Task)
    (records : list Task) (q : string) :
  plain_query q →
  ∃ out, index_filter records (Some q) = Return out
    ∧ out = filter (λ r, Str.ISubstring q (title_of r)) records
    ∧ out `sublist_of` records
    ∧ ∀ r, r ∈ out ↔ r ∈ records ∧ Str.ISubstring q (title_of r).
Proof.
  intros _. eexists. split; [| split; [reflexivity |]].
  - rewrite index_filter_run. by rewrite filter_icontains_ISubstring.
  - split; [apply sublist_filter |].
    intros r. rewrite list_elem_of_filter. tauto.
Qed.

Lemma X27_index_filter_exact_witness :
  index_filter [mk_post 1 "Intro to Go"; mk_post 2 "Rust basics"; mk_post 3 "Let's go on"]
    (Some " GO")
  = Return [mk_post 1 "Intro to Go"; mk_post 3 "Let's go on"].
Proof.
  destruct (X27_index_filter_exact Post Post_titled
              [mk_post 1 "Intro to Go"; mk_post 2 "Rust basics"; mk_post 3 "Let's go on"]
              " GO")
    as (out & Hrun & Hout & _).
  - split; [simpl; lia | reflexivity].
  - rewrite Hrun, Hout. reflexivity.
Defined.

(** ** The views on single posts *)

Lemma filter_pk_missing (k : Z) (l : list Post) :
  k ∉ pk <$> l → filter (λ p, pk p = k) l = [].
Proof.
  induction l as [|r l IH]; [done |]. rewrite fmap_cons, not_elem_of_cons.
  intros [Hne Hl]. rewrite filter_cons_False by done. auto.
Qed.

Lemma filter_pk_unique (p : Post) (l : list Post) :
  NoDup (pk <$> l) → p ∈ l → filter (λ r, pk r = pk p) l = [p].
Proof.
  induction l as [|r l IH]; [by intros _ ?%elem_of_nil |].
  rewrite fmap_cons, NoDup_cons. intros [Hr Hl] [->|Hp]%elem_of_cons.
  - rewrite filter_cons_True by done. by rewrite filter_pk_missing.
  - rewrite filter_cons_False; [auto |].
    intros Heq. apply Hr. rewrite Heq. by apply list_elem_of_fmap_2.
Qed.

Lemma get_missing (k : Z) (db : Table Post) :
  k ∉ pk <$> rows db → Manager.get k db = (inl DoesNotExist, db).
Proof. intros H. unfold Manager.get. by rewrite filter_pk_missing. Qed.

Lemma get_found (p : Post) (db : Table Post) :
  NoDup (pk <$> rows db) → p ∈ rows db → Manager.get (pk p) db = (inr p, db).
Proof. intros Hnd Hp. unfold Manager.get. by rewrite filter_pk_unique. Qed.

Lemma get_inv (k : Z) (db db' : Table Post) (r : ViewError + Post) :
  Manager.get k db = (r, db') →
  db' = db
  ∧ match r with
    | inr p => p ∈ rows db ∧ pk p = k
    | inl DoesNotExist => k ∉ pk <$> rows db
    | inl MultipleObjectsReturned => ¬ NoDup (pk <$> rows db)
    | inl (ValueError _) => False
    end.
Proof.
  unfold Manager.get.
  destruct (filter (λ p, pk p = k) (rows db)) as [|p [|q l]] eqn:Hf;
    intros [= <- <-]; (split; [done |]).
  - intros (p & Hk & Hp)%list_elem_of_fmap.
    assert (p ∈ filter (λ p, pk p = k) (rows db)) as Hin
      by (by apply list_elem_of_filter).
    rewrite Hf in Hin. by apply elem_of_nil in Hin.
  - assert (p ∈ filter (λ p, pk p = k) (rows db)) as Hin
      by (rewrite Hf; apply list_elem_of_here).
    by apply list_elem_of_filter in Hin as [? ?].
  - intros Hnd.
    assert (p ∈ filter (λ p, pk p = k) (rows db)) as [Hpk Hp]%list_elem_of_filter
      by (rewrite Hf; apply list_elem_of_here).
    rewrite <-Hpk, (filter_pk_unique p) in Hf by done. discriminate Hf.
Qed.

Lemma clean_char_inr (max_length : option nat) (value : option string) (v : string) :
  PostForm.clean_char max_length value = inr v ↔
  v = SearchForm.to_python value ∧ v ≠ ""
  ∧ match max_length with Some n => String.length v ≤ n | None => True end
  ∧ Str.contains (String "000" "") v = false.
Proof.
  unfold PostForm.clean_char. split.
  - intros H. destruct max_length as [n|]; repeat case_match; simplify_eq;
      repeat split; done || lia.
  - intros (-> & Hne & Hlen & Hnul). rewrite decide_False by done.
    rewrite Hnul. destruct max_length as [n|]; [| done].
    by rewrite decide_False by lia.
Qed.

Lemma clean_char_text (max_length : option nat) (value : option string) (v : string) :
  PostForm.clean_char max_length value = inr v → clean_text max_length v.
Proof.
  intros (Hv & Hne & Hlen & Hnul)%clean_char_inr. split; [| done].
  rewrite Hv. destruct value as [s|]; [apply strip_idemp | done].
Qed.

Lemma clean_text_char (max_length : option nat) (v : string) :
  clean_text max_length v → PostForm.clean_char max_length (Some v) = inr v.
Proof. intros (Hs & Hrest). apply clean_char_inr. by rewrite <-Hs at 1. Qed.

Lemma clean_choice_inr (choices : list string) (value : option string) (v : string) :
  PostForm.clean_choice choices value = inr v ↔
  value = Some v ∧ v ≠ "" ∧ v ∈ choices.
Proof.
  unfold PostForm.clean_choice. split.
  - intros H. repeat case_match; simplify_eq.
    destruct value as [s|]; simpl in *; [done | congruence].
  - intros (-> & Hne & Hin). simpl.
    by rewrite decide_False, decide_True by done.
Qed.

Lemma model_clean_inr (validators : string → list PostForm.FieldError)
    (c : PostForm.Cleaned) (v : string) :
  PostForm.model_clean validators c = inr v ↔ c = inr v ∧ validators v = [].
Proof.
  unfold PostForm.model_clean. split.
  - intros H. repeat case_match; by simplify_eq.
  - intros [-> ->]. done.
Qed.

Lemma max_length_validator_nil (n : nat) (v : string) :
  PostForm.max_length_validator n v = [] ↔ String.length v ≤ n.
Proof.
  unfold PostForm.max_length_validator. case_decide; split; done || lia.
Qed.

Lemma validate_default_run (text : string) :
  validate_default text = validate text default_blacklist.
Proof. reflexivity. Qed.

Lemma content_validators_nil (v : string) :
  PostForm.content_validators v = [] ↔ validate_default v = Accepted.
Proof.
  unfold PostForm.content_validators.
  change ((BadLanguageValidator.__call__ v (BadLanguageValidator.__init__ None)).1)
    with (validate_default v).
  destruct (validate_cases v default_blacklist) as [H|H];
    rewrite validate_default_run, H; split; done.
Qed.

Section PostFormFacts.
Context (choices : list string).

Lemma is_valid_iff (form : PostForm.t) :
  PostForm.is_valid choices form = true ↔
  ∃ d t c a l,
    PostForm.data form = Some d
    ∧ PostForm.clean_title form d = inr t
    ∧ PostForm.clean_content form d = inr c
    ∧ PostForm.clean_author form d = inr a
    ∧ PostForm.clean_language choices form d = inr l.
Proof.
  unfold PostForm.is_valid, PostForm.errors.
  destruct (PostForm.data form) as [d|]; [| split; [done | by intros (?&?&?&?&?&?&?)]].
  rewrite bool_decide_eq_true. split.
  - intros H.
    destruct (PostForm.clean_title _ _) as [?|t] eqn:Ht; [done |].
    destruct (PostForm.clean_content _ _) as [?|c] eqn:Hc; [done |].
    destruct (PostForm.clean_author _ _) as [?|a] eqn:Ha; [done |].
    destruct (PostForm.clean_language _ _ _) as [?|l] eqn:Hl; [done |].
    by exists d, t, c, a, l.
  - intros (d' & t & c & a & l & [= <-] & -> & -> & -> & ->). done.
Qed.

Lemma is_valid_errors (form : PostForm.t) :
  PostForm.is_valid choices form = true → PostForm.errors choices form = [].
Proof.
  unfold PostForm.is_valid. destruct (PostForm.data form); [| done].
  apply bool_decide_eq_true.
Qed.

(** The instance a valid form has built. *)
Lemma valid_instance (form : PostForm.t) (d : gmap string string)
    (t c a l : string) (p : Post) :
  PostForm.data form = Some d →
  PostForm.clean_title form d = inr t →
  PostForm.clean_content form d = inr c →
  PostForm.clean_author form d = inr a →
  PostForm.clean_language choices form d = inr l →
  PostForm.cleaned_instance choices form p =
  {| pk := pk p; title := t; content := c; author := a;
     created_at := created_at p; language := l |}.
Proof.
  unfold PostForm.cleaned_instance, PostForm.construct_instance.
  intros -> [Ht _]%model_clean_inr [Hc _]%model_clean_inr
    [Ha _]%model_clean_inr [Hl _]%model_clean_inr.
  by rewrite Ht, Hc, Ha, Hl.
Qed.

(** ... is well formed. *)
Lemma valid_instance_valid_post (form : PostForm.t) (d : gmap string string)
    (t c a l : string) (k at_ : Z) :
  PostForm.clean_title form d = inr t →
  PostForm.clean_content form d = inr c →
  PostForm.clean_author form d = inr a →
  PostForm.clean_language choices form d = inr l →
  valid_post choices
    {| pk := k; title := t; content := c; author := a;
       created_at := at_; language := l |}.
Proof.
  intros [Ht _]%model_clean_inr [Hc Hv]%model_clean_inr
    [Ha _]%model_clean_inr [Hl Hlen]%model_clean_inr.
  split; simpl.
  - by eapply clean_char_text.
  - split; [by eapply clean_char_text | by apply content_validators_nil].
  - by eapply clean_char_text.
  - apply clean_choice_inr in Hl as (_ & Hne & Hin).
    by apply max_length_validator_nil in Hlen.
Qed.

End PostFormFacts.

Section PostViewFacts.
Context (choices : list string) (other : string).

Lemma save_valid (env : InsertEnv) (form : PostForm.t) (db : Table Post) :
  PostForm.is_valid choices form = true →
  PostForm.save choices other env form db =
  match PostForm.instance form with
  | Some p => Manager.update (PostForm.cleaned_instance choices form p) db
  | None => Manager.insert (PostForm.cleaned_instance choices form (blank_post other env)) db
  end.
Proof.
  intros Hv. unfold PostForm.save. rewrite (is_valid_errors _ _ Hv). simpl.
  by destruct (PostForm.instance form).
Qed.

Lemma create_post_run (env : InsertEnv) (request : HttpRequestWithBody)
    (db : Table Post) :
  create_post choices other env request db =
  let form := PostCreateForm (POST_or_None request) in
  if decide (method request = "POST") then
    if PostForm.is_valid choices form then
      (inr (redirect "dash"),
       {| rows := rows db ++ [PostForm.cleaned_instance choices form (blank_post other env)] |})
    else (inr (render "posts/create-post.html" (PostForm.full_clean choices form)), db)
  else (inr (render "posts/create-post.html" form), db).
Proof.
  unfold create_post. simpl. case_decide; [| done].
  destruct (PostForm.is_valid _ _) eqn:Hv; [| done].
  unfold mbind, V_bind. by rewrite save_valid.
Qed.

Lemma update_found (p : Post) (db : Table Post) :
  pk p ∈ pk <$> rows db →
  Manager.update p db =
  (inr (), {| rows := (λ r, if decide (pk r = pk p) then p else r) <$> rows db |}).
Proof.
  intros Hin. unfold Manager.update. rewrite decide_True; [done |].
  apply list_elem_of_fmap in Hin as (r & Hr & Hin).
  apply Exists_exists. eauto.
Qed.

Lemma edit_post_run (env : InsertEnv) (request : HttpRequestWithBody)
    (post : Post) (db : Table Post) :
  Manager.get (pk post) db = (inr post, db) →
  edit_post choices other env request (pk post) db =
  if decide (method request = "POST") then
    let form := PostEditForm (Some (POST request)) post in
    if PostForm.is_valid choices form then
      (inr (redirect "dash"),
       {| rows := (λ r, if decide (pk r = pk post)
                        then PostForm.cleaned_instance choices form post else r)
                  <$> rows db |})
    else (inr (render "posts/edit-post.html"
                 (PostForm.full_clean choices form,
                  PostForm.cleaned_instance choices form post)), db)
  else (inr (render "posts/edit-post.html" (PostEditForm None post, post)), db).
Proof.
  intros Hget. unfold edit_post, mbind at 1, V_bind at 1. rewrite Hget.
  case_decide; [| done]. simpl.
  destruct (PostForm.is_valid _ _) eqn:Hv; [| done].
  unfold mbind, V_bind. rewrite save_valid by done. simpl.
  apply get_inv in Hget as (_ & Hin & _).
  rewrite update_found; [done |]. simpl. by apply list_elem_of_fmap_2.
Qed.

Lemma delete_post_run (request : HttpRequestWithBody) (post : Post)
    (db : Table Post) :
  Manager.get (pk post) db = (inr post, db) →
  delete_post choices request (pk post) db =
  let form := PostDeleteForm (POST_or_None request) post in
  if decide (method request = "POST") then
    if PostForm.is_valid choices form then
      (inr (redirect "dash"),
       {| rows := filter (λ r, pk r ≠ pk post) (rows db) |})
    else (inr (render "posts/delete-post.html"
                 (PostForm.full_clean choices form,
                  PostForm.cleaned_instance choices form post)), db)
  else (inr (render "posts/delete-post.html" (form, post)), db).
Proof.
  intros Hget. unfold delete_post, mbind at 1, V_bind at 1. rewrite Hget. simpl.
  case_decide; [| done]. by destruct (PostForm.is_valid _ _).
Qed.

Lemma view_get_fails {C} (k : Z) (db : Table Post) (e : ViewError)
    (body : Post → V (Table Post) C) :
  Manager.get k db = (inl e, db) → (post ← Manager.get k; body post) db = (inl e, db).
Proof. intros H. unfold mbind, V_bind. by rewrite H. Qed.

End PostViewFacts.

Lemma valid_post_pk (choices : list string) (p : Post) (k created : Z) :
  valid_post choices p →
  valid_post choices
    {| pk := k; title := title p; content := content p; author := author p;
       created_at := created; language := language p |}.
Proof. intros [? ? ? ?]. by split. Qed.

(** When a form whose fields are enabled is valid, in terms of its data. *)
Lemma is_valid_enabled (choices : list string) (form : PostForm.t)
    (d : gmap string string) :
  PostForm.data form = Some d → PostForm.disabled form = false →
  PostForm.is_valid choices form = true ↔ acceptable choices d.
Proof.
  intros Hd Hen. rewrite is_valid_iff. unfold acceptable.
  unfold PostForm.clean_title, PostForm.clean_content, PostForm.clean_author,
    PostForm.clean_language, PostForm.form_title, PostForm.form_content,
    PostForm.form_author, PostForm.form_language, PostForm.bound_value.
  rewrite Hen. split.
  - intros (d' & t & c & a & l & Hd' & Ht & Hc & Ha & Hl).
    rewrite Hd in Hd'. injection Hd' as <-.
    pose proof (valid_instance_valid_post choices form d t c a l 0 0) as Hvalid.
    unfold PostForm.clean_title, PostForm.clean_content, PostForm.clean_author,
      PostForm.clean_language, PostForm.form_title, PostForm.form_content,
      PostForm.form_author, PostForm.form_language, PostForm.bound_value in Hvalid.
    rewrite Hen in Hvalid. specialize (Hvalid Ht Hc Ha Hl).
    apply model_clean_inr in Ht as [Ht _], Hc as [Hc _], Ha as [Ha _], Hl as [Hl _].
    apply clean_char_inr in Ht as (Ht & Hnt & _), Hc as (Hc & Hnc & _),
      Ha as (Ha & Hna & _).
    apply clean_choice_inr in Hl as (Hl & _).
    destruct (d !! "title") as [t0|]; [| done].
    destruct (d !! "content") as [c0|]; [| done].
    destruct (d !! "author") as [a0|]; [| done].
    exists t0, c0, a0, l. simpl in *. subst t c a. done.
  - intros (t & c & a & l & Ht & Hc & Ha & Hl & [Vt [Vc Vv] Va (Vin & Vne & Vlen)]).
    simpl in *. exists d, (Str.strip t), (Str.strip c), (Str.strip a), l.
    rewrite Ht, Hc, Ha, Hl. split; [done |].
    destruct Vt as (_ & ? & ? & ?), Vc as (_ & ? & ? & ?), Va as (_ & ? & ? & ?).
    repeat split; apply model_clean_inr.
    + split; [by apply clean_char_inr | by apply max_length_validator_nil].
    + split; [by apply clean_char_inr | by apply content_validators_nil].
    + split; [by apply clean_char_inr | by apply max_length_validator_nil].
    + split; [by apply clean_choice_inr | by apply max_length_validator_nil].
Qed.

(** The instance such a form builds. *)
Lemma cleaned_instance_enabled (choices : list string) (form : PostForm.t)
    (d : gmap string string) (t c a l : string) (p : Post) :
  PostForm.data form = Some d → PostForm.disabled form = false →
  d !! "title" = Some t → d !! "content" = Some c →
  d !! "author" = Some a → d !! "language" = Some l →
  valid_post choices (submitted_post 0 0 t c a l) →
  PostForm.cleaned_instance choices form p
  = submitted_post (pk p) (created_at p) t c a l.
Proof.
  intros Hd Hen Ht Hc Ha Hl [Vt [Vc Vv] Va (Vin & Vne & Vlen)]. simpl in *.
  unfold PostForm.cleaned_instance, PostForm.construct_instance,
    PostForm.form_title, PostForm.form_content, PostForm.form_author,
    PostForm.form_language, PostForm.bound_value.
  rewrite Hd, Hen, Ht, Hc, Ha, Hl.
  destruct Vt as (_ & ? & ? & ?), Vc as (_ & ? & ? & ?), Va as (_ & ? & ? & ?).
  rewrite (proj2 (clean_char_inr (Some 100) (Some t) (Str.strip t))) by done.
  rewrite (proj2 (clean_char_inr None (Some c) (Str.strip c))) by done.
  rewrite (proj2 (clean_char_inr (Some 30) (Some a) (Str.strip a))) by done.
  by rewrite (proj2 (clean_choice_inr choices (Some l) l)) by done.
Qed.

(** A form whose fields are disabled is valid on a well-formed instance,
    whatever the data, and leaves that instance as it is. *)
Lemma is_valid_disabled (choices : list string) (d : gmap string string) (p : Post) :
  valid_post choices p →
  PostForm.is_valid choices (PostDeleteForm (Some d) p) = true.
Proof.
  intros [Vt [Vc Vv] Va (Vin & Vne & Vlen)]. apply is_valid_iff.
  exists d, (title p), (content p), (author p), (language p).
  unfold PostForm.clean_title, PostForm.clean_content, PostForm.clean_author,
    PostForm.clean_language, PostForm.form_title, PostForm.form_content,
    PostForm.form_author, PostForm.form_language, PostForm.bound_value. simpl.
  split; [done |]. repeat split; apply model_clean_inr.
  - split; [by apply clean_text_char |].
    apply max_length_validator_nil. by destruct Vt as (_ & _ & ? & _).
  - split; [by apply clean_text_char | by apply content_validators_nil].
  - split; [by apply clean_text_char |].
    apply max_length_validator_nil. by destruct Va as (_ & _ & ? & _).
  - split; [by apply clean_choice_inr | by apply max_length_validator_nil].
Qed.

(** A disabled form with a content the validator rejects is not valid. *)
Lemma is_valid_disabled_content (choices : list string) (form : PostForm.t) (p : Post) :
  PostForm.disabled form = true → PostForm.instance form = Some p →
  PostForm.is_valid choices form = true →
  validate_default (Str.strip (content p)) = Accepted.
Proof.
  intros Hdis Hinst (d & t & c & a & l & Hd & _ & Hc & _)%is_valid_iff.
  unfold PostForm.clean_content, PostForm.form_content, PostForm.bound_value in Hc.
  rewrite Hdis, Hinst in Hc. simpl in Hc.
  apply model_clean_inr in Hc as [Hc Hv].
  apply clean_char_inr in Hc as (-> & _). by apply content_validators_nil.
Qed.

(** Closed goals about concrete posts and form data. *)
Ltac by_evaluation :=
  repeat split;
  try (apply list_elem_of_In; simpl; tauto);
  try (vm_compute; discriminate);
  try (vm_compute; lia);
  try (vm_compute; reflexivity).

Lemma ex_db_unique : unique_pks ex_db.
Proof. unfold unique_pks. simpl. apply NoDup_singleton. Qed.

Lemma ex_post_in_db : ex_post ∈ rows ex_db.
Proof. apply list_elem_of_here. Qed.

Lemma details_post_found (request : HttpRequestWithBody)
    (db : Table Post) (p : Post) :
  unique_pks db → p ∈ rows db →
  details_post request (pk p) db = (inr (render "posts/details-post.html" p), db).
Proof.
  intros Hnd Hp. unfold details_post, mbind, V_bind.
  by rewrite (get_found p db Hnd Hp).
Qed.

(** X12: [details_post] shows the post with the given primary key: when
    the keys of the table are unique and [p] is a row, asking for [p]'s key
    renders "posts/details-post.html" with [p]; the table is never
    touched. *)
Theorem X12_details_post_shows_row (request : HttpRequestWithBody)
    (db : Table Post) (p : Post) :
  unique_pks db → p ∈ rows db →
  details_post request (pk p) db = (inr (render "posts/details-post.html" p), db).
Proof.
  apply details_post_found.
Qed.

Lemma X12_details_post_shows_row_witness :
  details_post (ex_request "GET" []) 1 ex_db
  = (inr (render "posts/details-post.html" ex_post), ex_db).
Proof.
  apply (X12_details_post_shows_row (ex_request "GET" []) ex_db ex_post).
  - unfold unique_pks. simpl. apply NoDup_singleton.
  - apply list_elem_of_here.
Defined.

(** X13: a primary key no row has: [details_post], [edit_post] and
    [delete_post] raise [DoesNotExist], whatever the request, and leave
    the table as it was. *)
Theorem X13_missing_pk_raises (choices : list string) (other : string)
    (env : InsertEnv) (request : HttpRequestWithBody) (k : Z) (db : Table Post) :
  k ∉ pk <$> rows db →
  details_post request k db = (inl DoesNotExist, db)
  ∧ edit_post choices other env request k db = (inl DoesNotExist, db)
  ∧ delete_post choices request k db = (inl DoesNotExist, db).
Proof.
  intros Hk. pose proof (get_missing k db Hk) as Hget.
  repeat split; by apply view_get_fails.
Qed.

Lemma X13_missing_pk_raises_witness :
  delete_post ex_choices (ex_request "POST" ex_body) 7 ex_db = (inl DoesNotExist, ex_db).
Proof.
  apply (X13_missing_pk_raises ex_choices "other" ex_env (ex_request "POST" ex_body) 7 ex_db).
  intros H. apply list_elem_of_In in H. simpl in H. destruct H as [H|[]].
  discriminate H.
Defined.

Lemma create_post_not_accepted (choices : list string) (other : string)
    (env : InsertEnv) (request : HttpRequestWithBody) (db : Table Post) :
  ¬ (method request = "POST" ∧ acceptable choices (POST request)) →
  ∃ form,
    create_post choices other env request db
    = (inr (render "posts/create-post.html" form), db).
Proof.
  rewrite create_post_run. cbv zeta. unfold POST_or_None.
  intros Hnot. case_decide as Hm; [| by eexists].
  destruct (decide (POST request = ∅)) as [He|He]; [by eexists |].
  destruct (PostForm.is_valid _ _) eqn:Hv; [| by eexists].
  destruct Hnot. split; [done |].
  by apply (is_valid_enabled choices (PostCreateForm (Some (POST request)))
              (POST request) eq_refl eq_refl).
Qed.

Lemma create_post_accepted (choices : list string) (other : string)
    (env : InsertEnv) (request : HttpRequestWithBody) (db : Table Post)
    (t c a l : string) :
  method request = "POST" →
  POST request !! "title" = Some t → POST request !! "content" = Some c →
  POST request !! "author" = Some a → POST request !! "language" = Some l →
  valid_post choices (submitted_post 0 0 t c a l) →
  create_post choices other env request db
  = (inr (redirect "dash"),
     {| rows := rows db
                ++ [submitted_post (env_new_pk env) (env_now env) t c a l] |}).
Proof.
  rewrite create_post_run. cbv zeta. unfold POST_or_None.
  intros Hm Ht Hc Ha Hl Hvalid.
  assert (POST request ≠ ∅) as Hne.
  { intros He. by rewrite He, lookup_empty in Ht. }
  rewrite decide_True, (decide_False (P:=POST request = ∅)) by done.
  rewrite (proj2 (is_valid_enabled choices (PostCreateForm (Some (POST request)))
                    (POST request) eq_refl eq_refl))
    by (by exists t, c, a, l).
  by rewrite (cleaned_instance_enabled choices
                (PostCreateForm (Some (POST request))) (POST request) t c a l).
Qed.

(** X14: [create_post] stores a post exactly on a POST whose form data are
    acceptable: then it redirects to "dash" and the table is the old one
    with one row more, carrying the new primary key, the time of the
    insert and the submitted fields, text trimmed; on every other request
    it renders "posts/create-post.html" and leaves the table as it was. *)
Theorem X14_create_post_effect (choices : list string) (other : string)
    (env : InsertEnv) (request : HttpRequestWithBody) (db : Table Post) :
  (∀ t c a l,
     method request = "POST" →
     POST request !! "title" = Some t → POST request !! "content" = Some c →
     POST request !! "author" = Some a → POST request !! "language" = Some l →
     valid_post choices (submitted_post 0 0 t c a l) →
     create_post choices other env request db
     = (inr (redirect "dash"),
        {| rows := rows db
                   ++ [submitted_post (env_new_pk env) (env_now env) t c a l] |}))
  ∧ (¬ (method request = "POST" ∧ acceptable choices (POST request)) →
     ∃ form,
       create_post choices other env request db
       = (inr (render "posts/create-post.html" form), db)).
Proof.
  split; [apply create_post_accepted | apply create_post_not_accepted].
Qed.

Lemma X14_create_post_effect_witness :
  create_post ex_choices "other" ex_env (ex_request "POST" ex_body) ex_db
  = (inr (redirect "dash"),
     {| rows := [ex_post; submitted_post 2 20 " New " "fine" "bob" "js"] |}).
Proof.
  apply (proj1 (X14_create_post_effect ex_choices "other" ex_env
                  (ex_request "POST" ex_body) ex_db) " New " "fine" "bob" "js");
    try reflexivity.
  by_evaluation.
Defined.

Lemma get_state (k : Z) (db : Table Post) : (Manager.get k db).2 = db.
Proof. unfold Manager.get. by repeat case_match. Qed.

Lemma get_cases (k : Z) (db : Table Post) :
  (∃ e, Manager.get k db = (inl e, db))
  ∨ (∃ post, Manager.get k db = (inr post, db) ∧ post ∈ rows db ∧ pk post = k).
Proof.
  destruct (Manager.get k db) as [[e|post] db'] eqn:Hget;
    apply get_inv in Hget as Hinv; destruct Hinv as [-> Hinv].
  - left. by exists e.
  - right. exists post. by destruct Hinv.
Qed.

Lemma edit_post_not_accepted (choices : list string) (other : string)
    (env : InsertEnv) (request : HttpRequestWithBody) (db : Table Post) (k : Z) :
  ¬ (method request = "POST" ∧ acceptable choices (POST request)) →
  (edit_post choices other env request k db).2 = db
  ∧ (edit_post choices other env request k db).1 ≠ inr (redirect "dash").
Proof.
  intros Hnot. destruct (get_cases k db) as [[e He]|(post & Hget & Hin & <-)].
  - unfold edit_post. by rewrite (view_get_fails _ _ e _ He).
  - rewrite (edit_post_run choices other env request post db Hget).
    case_decide; [| done]. cbv zeta.
    destruct (PostForm.is_valid _ _) eqn:Hv; [| done].
    destruct Hnot. split; [done |].
    by apply (is_valid_enabled choices (PostEditForm (Some (POST request)) post)
                (POST request) eq_refl eq_refl).
Qed.

(** X15: bad language is never stored: when the submitted content, trimmed,
    is rejected by the validator of [content], [create_post] and
    [edit_post] leave the table as it was and answer with their form
    page, not with the redirect. *)
Theorem X15_bad_language_never_stored (choices : list string) (other : string)
    (env : InsertEnv) (request : HttpRequestWithBody) (k : Z) (db : Table Post)
    (c : string) :
  POST request !! "content" = Some c →
  validate_default (Str.strip c) = Rejected "The text contains bad language" →
  (∃ form, create_post choices other env request db
           = (inr (render "posts/create-post.html" form), db))
  ∧ (edit_post choices other env request k db).2 = db
  ∧ (edit_post choices other env request k db).1 ≠ inr (redirect "dash").
Proof.
  intros Hc Hrej.
  assert (¬ acceptable choices (POST request)) as Hnot.
  { intros (t & c' & a & l & _ & Hc' & _ & _ & [_ [_ Hv] _ _]).
    rewrite Hc in Hc'. injection Hc' as <-.
    unfold submitted_post in Hv. cbn [content] in Hv.
    rewrite Hrej in Hv. discriminate Hv. }
  split; [apply create_post_not_accepted; tauto |].
  apply edit_post_not_accepted. tauto.
Qed.

Lemma X15_bad_language_never_stored_witness :
  ∃ form,
    create_post ex_choices "other" ex_env
      (ex_request "POST" [("title", "T"); ("content", " so Bad_Word_2 "); ("author", "bob");
                          ("language", "js")]) ex_db
    = (inr (render "posts/create-post.html" form), ex_db).
Proof.
  apply (X15_bad_language_never_stored ex_choices "other" ex_env
           (ex_request "POST" [("title", "T"); ("content", " so Bad_Word_2 ");
                               ("author", "bob"); ("language", "js")])
           1 ex_db " so Bad_Word_2 "); reflexivity.
Defined.

Lemma cleaned_instance_pk (choices : list string) (form : PostForm.t) (p : Post) :
  pk (PostForm.cleaned_instance choices form p) = pk p
  ∧ created_at (PostForm.cleaned_instance choices form p) = created_at p.
Proof. unfold PostForm.cleaned_instance. by destruct (PostForm.data form). Qed.

Lemma valid_cleaned_instance (choices : list string) (form : PostForm.t) (p : Post) :
  PostForm.is_valid choices form = true →
  valid_post choices (PostForm.cleaned_instance choices form p).
Proof.
  intros (d & t & c & a & l & Hd & Ht & Hc & Ha & Hl)%is_valid_iff.
  rewrite (valid_instance choices form d t c a l p) by done.
  by eapply valid_instance_valid_post.
Qed.

(** X16: the views keep the table well formed: if every stored post is
    well formed (text fields trimmed, non-empty, within [max_length], no
    NUL; content accepted by the validator; language among the choices),
    it is still so after [create_post], [edit_post] and [delete_post],
    whatever the request and the outcome. *)
Theorem X16_views_keep_posts_valid (choices : list string) (other : string)
    (env : InsertEnv) (request : HttpRequestWithBody) (k : Z) (db : Table Post) :
  Forall (valid_post choices) (rows db) →
  Forall (valid_post choices) (rows (create_post choices other env request db).2)
  ∧ Forall (valid_post choices) (rows (edit_post choices other env request k db).2)
  ∧ Forall (valid_post choices) (rows (delete_post choices request k db).2).
Proof.
  intros Hall. split; [| split].
  - rewrite create_post_run. cbv zeta. case_decide; [| done].
    destruct (PostForm.is_valid _ _) eqn:Hv; [| done]. simpl.
    apply Forall_app. split; [done |]. apply Forall_singleton.
    by apply valid_cleaned_instance.
  - destruct (get_cases k db) as [[e He]|(post & Hget & Hin & <-)].
    + unfold edit_post. by rewrite (view_get_fails _ _ e _ He).
    + rewrite (edit_post_run choices other env request post db Hget).
      case_decide; [| done]. cbv zeta.
      destruct (PostForm.is_valid _ _) eqn:Hv; [| done]. simpl.
      apply Forall_fmap. eapply Forall_impl; [exact Hall |]. intros r Hr. simpl.
      case_decide; [by apply valid_cleaned_instance | done].
  - destruct (get_cases k db) as [[e He]|(post & Hget & Hin & <-)].
    + unfold delete_post. by rewrite (view_get_fails _ _ e _ He).
    + rewrite (delete_post_run choices request post db Hget). cbv zeta.
      case_decide; [| done].
      destruct (PostForm.is_valid _ _) eqn:Hv; [| done]. simpl.
      apply Forall_forall. intros r [_ Hr]%list_elem_of_filter.
      rewrite Forall_forall in Hall. auto.
Qed.

Lemma X16_views_keep_posts_valid_witness :
  Forall (valid_post ex_choices)
    (rows (create_post ex_choices "other" ex_env (ex_request "POST" ex_body) ex_db).2).
Proof.
  apply (X16_views_keep_posts_valid ex_choices "other" ex_env
           (ex_request "POST" ex_body) 1 ex_db).
  apply Forall_singleton. by_evaluation.
Defined.

(** X17: the views keep primary keys unique: [edit_post] and
    [delete_post] always, [create_post] when the key the database hands
    out is not in use. *)
Theorem X17_views_keep_pks_unique (choices : list string) (other : string)
    (env : InsertEnv) (request : HttpRequestWithBody) (k : Z) (db : Table Post) :
  unique_pks db →
  (env_new_pk env ∉ pk <$> rows db →
   unique_pks (create_post choices other env request db).2)
  ∧ unique_pks (edit_post choices other env request k db).2
  ∧ unique_pks (delete_post choices request k db).2.
Proof.
  unfold unique_pks. intros Hnd. split; [| split].
  - intros Hfresh. rewrite create_post_run. cbv zeta. case_decide; [| done].
    destruct (PostForm.is_valid _ _) eqn:Hv; [| done]. simpl.
    rewrite fmap_app. apply NoDup_app. split; [done |]. split.
    + intros x Hx [->|[]%elem_of_nil]%elem_of_cons.
      by rewrite (proj1 (cleaned_instance_pk _ _ _)) in Hx.
    + apply NoDup_singleton.
  - destruct (get_cases k db) as [[e He]|(post & Hget & Hin & <-)].
    + unfold edit_post. by rewrite (view_get_fails _ _ e _ He).
    + rewrite (edit_post_run choices other env request post db Hget).
      case_decide; [| done]. cbv zeta.
      destruct (PostForm.is_valid _ _) eqn:Hv; [| done]. simpl.
      rewrite <-list_fmap_compose.
      erewrite list_fmap_ext; [exact Hnd |]. intros i r _. simpl.
      case_decide as Hpk; [| done].
      by rewrite (proj1 (cleaned_instance_pk _ _ _)).
  - destruct (get_cases k db) as [[e He]|(post & Hget & Hin & <-)].
    + unfold delete_post. by rewrite (view_get_fails _ _ e _ He).
    + rewrite (delete_post_run choices request post db Hget). cbv zeta.
      case_decide; [| done].
      destruct (PostForm.is_valid _ _) eqn:Hv; [| done]. simpl.
      eapply (sublist_NoDup _ (pk <$> rows db)); [exact Hnd |].
      apply fmap_sublist, sublist_filter.
Qed.

Lemma X17_views_keep_pks_unique_witness :
  unique_pks (create_post ex_choices "other" ex_env (ex_request "POST" ex_body) ex_db).2.
Proof.
  apply (X17_views_keep_pks_unique ex_choices "other" ex_env
           (ex_request "POST" ex_body) 1 ex_db).
  - unfold unique_pks. simpl. apply NoDup_singleton.
  - simpl. intros H. apply list_elem_of_In in H. simpl in H.
    destruct H as [H|[]]. discriminate H.
Defined.

Lemma edit_post_accepted (choices : list string) (other : string)
    (env : InsertEnv) (request : HttpRequestWithBody) (db : Table Post)
    (post : Post) (t c a l : string) :
  unique_pks db → post ∈ rows db →
  method request = "POST" →
  POST request !! "title" = Some t → POST request !! "content" = Some c →
  POST request !! "author" = Some a → POST request !! "language" = Some l →
  valid_post choices (submitted_post 0 0 t c a l) →
  edit_post choices other env request (pk post) db
  = (inr (redirect "dash"),
     {| rows := (λ r, if decide (pk r = pk post)
                      then submitted_post (pk post) (created_at post) t c a l
                      else r) <$> rows db |}).
Proof.
  intros Hnd Hin Hm Ht Hc Ha Hl Hvalid.
  rewrite (edit_post_run choices other env request post db (get_found post db Hnd Hin)).
  rewrite decide_True by done. cbv zeta.
  rewrite (proj2 (is_valid_enabled choices (PostEditForm (Some (POST request)) post)
                    (POST request) eq_refl eq_refl))
    by (by exists t, c, a, l).
  by rewrite (cleaned_instance_enabled choices
                (PostEditForm (Some (POST request)) post) (POST request) t c a l).
Qed.

(** X18: [edit_post] on an existing post: a POST with acceptable data
    redirects to "dash" and replaces the row by the submitted fields, text
    trimmed, keeping its primary key and creation time and every other
    row; a request that is no POST renders the page with an unbound form
    and the stored post; no other request changes the table. *)
Theorem X18_edit_post_effect (choices : list string) (other : string)
    (env : InsertEnv) (request : HttpRequestWithBody) (db : Table Post)
    (post : Post) :
  unique_pks db → post ∈ rows db →
  (∀ t c a l,
     method request = "POST" →
     POST request !! "title" = Some t → POST request !! "content" = Some c →
     POST request !! "author" = Some a → POST request !! "language" = Some l →
     valid_post choices (submitted_post 0 0 t c a l) →
     edit_post choices other env request (pk post) db
     = (inr (redirect "dash"),
        {| rows := (λ r, if decide (pk r = pk post)
                         then submitted_post (pk post) (created_at post) t c a l
                         else r) <$> rows db |}))
  ∧ (method request ≠ "POST" →
     edit_post choices other env request (pk post) db
     = (inr (render "posts/edit-post.html" (PostEditForm None post, post)), db))
  ∧ (¬ (method request = "POST" ∧ acceptable choices (POST request)) →
     (edit_post choices other env request (pk post) db).2 = db).
Proof.
  intros Hnd Hin. split; [| split].
  - intros t c a l. by apply edit_post_accepted.
  - intros Hm.
    rewrite (edit_post_run choices other env request post db (get_found post db Hnd Hin)).
    by rewrite decide_False.
  - intros Hnot. by apply edit_post_not_accepted.
Qed.

Lemma X18_edit_post_effect_witness :
  edit_post ex_choices "other" ex_env (ex_request "POST" ex_body) 1 ex_db
  = (inr (redirect "dash"),
     {| rows := [submitted_post 1 10 " New " "fine" "bob" "js"] |}).
Proof.
  apply (proj1 (X18_edit_post_effect ex_choices "other" ex_env
                  (ex_request "POST" ex_body) ex_db ex_post
                  ex_db_unique ex_post_in_db)
           " New " "fine" "bob" "js");
    try reflexivity.
  by_evaluation.
Defined.

Lemma delete_post_valid (choices : list string) (request : HttpRequestWithBody)
    (db : Table Post) (post : Post) :
  unique_pks db → post ∈ rows db →
  method request = "POST" → POST request ≠ ∅ → valid_post choices post →
  delete_post choices request (pk post) db
  = (inr (redirect "dash"), {| rows := filter (λ r, pk r ≠ pk post) (rows db) |}).
Proof.
  intros Hnd Hin Hm Hne Hvalid.
  rewrite (delete_post_run choices request post db (get_found post db Hnd Hin)).
  cbv zeta. unfold POST_or_None.
  rewrite decide_True, (decide_False (P:=POST request = ∅)) by done.
  by rewrite is_valid_disabled.
Qed.

(** X19: [delete_post] on an existing post: a POST with a non-empty body
    on a well-formed post redirects to "dash" and removes that row and no
    other; a request that is no POST, or with an empty body, renders the
    page and removes nothing. *)
Theorem X19_delete_post_effect (choices : list string)
    (request : HttpRequestWithBody) (db : Table Post) (post : Post) :
  unique_pks db → post ∈ rows db →
  (method request = "POST" → POST request ≠ ∅ → valid_post choices post →
   ∃ db',
     delete_post choices request (pk post) db = (inr (redirect "dash"), db')
     ∧ (post ∉ rows db')
     ∧ rows db' `sublist_of` rows db
     ∧ ∀ r, r ∈ rows db → r ≠ post → r ∈ rows db')
  ∧ (method request ≠ "POST" ∨ POST request = ∅ →
     delete_post choices request (pk post) db
     = (inr (render "posts/delete-post.html"
               (PostDeleteForm (POST_or_None request) post, post)), db)).
Proof.
  intros Hnd Hin.
  pose proof (delete_post_run choices request post db (get_found post db Hnd Hin))
    as Hrun. cbv zeta in Hrun.
  split.
  - intros Hm Hne Hvalid. eexists. split; [by apply delete_post_valid |]. simpl.
    split; [| split].
    + by intros [? _]%list_elem_of_filter.
    + apply sublist_filter.
    + intros r Hr Hneq. apply list_elem_of_filter. split; [| done].
      intros Hpk. apply Hneq.
      assert (r ∈ filter (λ x, pk x = pk post) (rows db)) as Hf
        by (by apply list_elem_of_filter).
      rewrite (filter_pk_unique post) in Hf by done.
      by apply list_elem_of_singleton in Hf.
  - intros Hor. rewrite Hrun. case_decide as Hm; [| done].
    destruct Hor as [?|He]; [done |].
    unfold POST_or_None. by rewrite decide_True.
Qed.

Lemma X19_delete_post_effect_witness :
  ∃ db',
    delete_post ex_choices (ex_request "POST" [("csrfmiddlewaretoken", "x")]) 1 ex_db
    = (inr (redirect "dash"), db')
    ∧ (ex_post ∉ rows db')
    ∧ rows db' `sublist_of` rows ex_db
    ∧ ∀ r, r ∈ rows ex_db → r ≠ ex_post → r ∈ rows db'.
Proof.
  apply (proj1 (X19_delete_post_effect ex_choices
                  (ex_request "POST" [("csrfmiddlewaretoken", "x")]) ex_db ex_post
                  ex_db_unique ex_post_in_db)).
  - reflexivity.
  - apply (bool_decide_unpack _). by vm_compute.
  - by_evaluation.
Defined.

Lemma table_eta (db : Table Post) : {| rows := rows db |} = db.
Proof. by destruct db. Qed.

Lemma filter_pk_fresh (k : Z) (l : list Post) :
  k ∉ pk <$> l → filter (λ r, pk r ≠ k) l = l.
Proof.
  induction l as [|r l IH]; [done |]. rewrite fmap_cons, not_elem_of_cons.
  intros [Hne Hl]. rewrite filter_cons_True by done. by rewrite IH.
Qed.

(** X20: what the views write, [details_post] reads: after a successful
    [create_post] the new primary key shows the post just stored; after a
    successful [edit_post] the key shows the edited post; after a
    successful [delete_post] the key raises [DoesNotExist]. *)
Theorem X20_write_then_details (choices : list string) (other : string)
    (env : InsertEnv) (request viewing : HttpRequestWithBody) (db : Table Post) :
  unique_pks db →
  (∀ t c a l db',
     env_new_pk env ∉ pk <$> rows db →
     method request = "POST" →
     POST request !! "title" = Some t → POST request !! "content" = Some c →
     POST request !! "author" = Some a → POST request !! "language" = Some l →
     valid_post choices (submitted_post 0 0 t c a l) →
     db' = (create_post choices other env request db).2 →
     details_post viewing (env_new_pk env) db'
     = (inr (render "posts/details-post.html"
               (submitted_post (env_new_pk env) (env_now env) t c a l)), db'))
  ∧ (∀ post t c a l db',
     post ∈ rows db →
     method request = "POST" →
     POST request !! "title" = Some t → POST request !! "content" = Some c →
     POST request !! "author" = Some a → POST request !! "language" = Some l →
     valid_post choices (submitted_post 0 0 t c a l) →
     db' = (edit_post choices other env request (pk post) db).2 →
     details_post viewing (pk post) db'
     = (inr (render "posts/details-post.html"
               (submitted_post (pk post) (created_at post) t c a l)), db'))
  ∧ (∀ post db',
     post ∈ rows db →
     method request = "POST" → POST request ≠ ∅ → valid_post choices post →
     db' = (delete_post choices request (pk post) db).2 →
     details_post viewing (pk post) db' = (inl DoesNotExist, db')).
Proof.
  intros Hnd. split; [| split].
  - intros t c a l db' Hfresh Hm Ht Hc Ha Hl Hvalid ->.
    rewrite (create_post_accepted choices other env request db t c a l) by done.
    cbn [snd].
    apply (details_post_found viewing _ (submitted_post (env_new_pk env) (env_now env) t c a l)).
    + unfold unique_pks. cbn [rows]. rewrite fmap_app. apply NoDup_app.
      split; [done |]. split; [| apply NoDup_singleton].
      by intros x Hx [->|[]%elem_of_nil]%elem_of_cons.
    + cbn [rows]. apply elem_of_app. right. apply list_elem_of_here.
  - intros post t c a l db' Hin Hm Ht Hc Ha Hl Hvalid ->.
    rewrite (edit_post_accepted choices other env request db post t c a l) by done.
    cbn [snd].
    apply (details_post_found viewing _ (submitted_post (pk post) (created_at post) t c a l)).
    + unfold unique_pks. cbn [rows]. rewrite <-list_fmap_compose.
      erewrite list_fmap_ext; [exact Hnd |]. intros i r _. simpl.
      by case_decide.
    + cbn [rows]. apply list_elem_of_fmap. exists post. split; [| done].
      by rewrite decide_True.
  - intros post db' Hin Hm Hne Hvalid ->.
    rewrite (delete_post_valid choices request db post) by done. cbn [snd].
    unfold details_post. apply view_get_fails, get_missing. cbn [rows].
    intros (r & Hpk & [Hr _]%list_elem_of_filter)%list_elem_of_fmap. done.
Qed.

Lemma X20_write_then_details_witness :
  details_post (ex_request "GET" []) 2
    (create_post ex_choices "other" ex_env (ex_request "POST" ex_body) ex_db).2
  = (inr (render "posts/details-post.html" (submitted_post 2 20 " New " "fine" "bob" "js")),
     (create_post ex_choices "other" ex_env (ex_request "POST" ex_body) ex_db).2).
Proof.
  apply (proj1 (X20_write_then_details ex_choices "other" ex_env
                  (ex_request "POST" ex_body) (ex_request "GET" []) ex_db ex_db_unique)
           " New " "fine" "bob" "js");
    try reflexivity.
  - simpl. intros H. apply list_elem_of_In in H. simpl in H.
    destruct H as [H|[]]. discriminate H.
  - by_evaluation.
Defined.

Lemma isspace_lower_char (c : ascii) :
  Str.isspace (Str.lower_char c) = Str.isspace c.
Proof. by destruct c as [[] [] [] [] [] [] [] []]. Qed.

Lemma lower_lstrip (s : string) : Str.lower (Str.lstrip s) = Str.lstrip (Str.lower s).
Proof.
  induction s as [|c s IH]; [done |]. simpl. rewrite isspace_lower_char.
  by destruct (Str.isspace c).
Qed.

Lemma lower_rstrip (s : string) : Str.lower (Str.rstrip s) = Str.rstrip (Str.lower s).
Proof.
  induction s as [|c s IH]; [done |]. simpl.
  rewrite <-IH, isspace_lower_char.
  destruct (Str.rstrip s); simpl; [by destruct (Str.isspace c) | done].
Qed.

Lemma lower_strip (q t : string) :
  Str.lower q = Str.lower t → Str.lower (Str.strip q) = Str.lower (Str.strip t).
Proof.
  intros H. unfold Str.strip. by rewrite !lower_rstrip, !lower_lstrip, H.
Qed.

(** X21: a post just created is found by the search: after a successful
    [create_post], [dashboard] asked for the submitted title (as typed, or
    in any other case) returns the new post among its results. *)
Theorem X21_created_post_is_found (choices : list string) (other : string)
    (env : InsertEnv) (request : HttpRequestWithBody) (db : Table Post)
    (t c a l q : string) :
  method request = "POST" →
  POST request !! "title" = Some t → POST request !! "content" = Some c →
  POST request !! "author" = Some a → POST request !! "language" = Some l →
  valid_post choices (submitted_post 0 0 t c a l) →
  Str.lower q = Str.lower t →
  ∃ out,
    dashboard_filter (rows (create_post choices other env request db).2) (Some q)
    = Return out
    ∧ submitted_post (env_new_pk env) (env_now env) t c a l ∈ out.
Proof.
  intros Hm Ht Hc Ha Hl Hvalid Hq.
  rewrite (create_post_accepted choices other env request db t c a l) by done.
  cbn [snd rows]. eexists. split; [apply dashboard_filter_run |].
  destruct (SearchForm.clean (Some q)) as [e|q'] eqn:Hclean.
  - apply elem_of_app. right. apply list_elem_of_here.
  - rewrite (filter_icontains_ISubstring (A:=Post)).
    apply list_elem_of_filter. split; [| apply elem_of_app; right; apply list_elem_of_here].
    apply clean_value in Hclean. simpl in Hclean. subst q'.
    unfold title_of, Post_titled, Str.ISubstring. cbn [title submitted_post].
    assert (Str.lower (Str.strip q) = Str.lower (Str.strip t)) as ->;
      [| apply Substring_refl].
    by apply lower_strip.
Qed.

Lemma X21_created_post_is_found_witness :
  ∃ out,
    dashboard_filter
      (rows (create_post ex_choices "other" ex_env (ex_request "POST" ex_body) ex_db).2)
      (Some " NEW ")
    = Return out
    ∧ submitted_post 2 20 " New " "fine" "bob" "js" ∈ out.
Proof.
  apply (X21_created_post_is_found ex_choices "other" ex_env
           (ex_request "POST" ex_body) ex_db " New " "fine" "bob" "js" " NEW ");
    try reflexivity.
  by_evaluation.
Defined.

(** X22: [form.save()] never refuses: the views call it only after
    [is_valid()], so none of them raises [ValueError]; [create_post]
    raises nothing at all, and with unique primary keys the only error of
    the other three is [DoesNotExist]. *)
Theorem X22_views_errors (choices : list string) (other : string)
    (env : InsertEnv) (request : HttpRequestWithBody) (k : Z) (db : Table Post) :
  (∃ response, (create_post choices other env request db).1 = inr response)
  ∧ (∀ e, (edit_post choices other env request k db).1 = inl e
          ∨ (delete_post choices request k db).1 = inl e
          ∨ (details_post request k db).1 = inl e →
          (e = DoesNotExist ∧ k ∉ pk <$> rows db)
          ∨ (e = MultipleObjectsReturned ∧ ¬ unique_pks db)).
Proof.
  split.
  - rewrite create_post_run. cbv zeta. repeat case_match; by eexists.
  - intros e Hor.
    assert (Manager.get k db = (inl e, db)) as Hget.
    { destruct (get_cases k db) as [[e' He]|(post & Hget & Hin & <-)].
      - unfold edit_post, delete_post, details_post in Hor.
        rewrite !(view_get_fails _ _ e' _ He) in Hor. simpl in Hor.
        by destruct Hor as [[= ->]|[[= ->]|[= ->]]].
      - rewrite (edit_post_run choices other env request post db Hget),
          (delete_post_run choices request post db Hget) in Hor.
        unfold details_post, mbind, V_bind in Hor. rewrite Hget in Hor.
        cbv zeta in Hor. exfalso.
        destruct Hor as [Hor|[Hor|Hor]]; repeat case_match; by simplify_eq/=. }
    apply get_inv in Hget as [_ Hinv]. destruct e; [by left | by right | done].
Qed.

Lemma X22_views_errors_witness :
  (DoesNotExist = DoesNotExist ∧ 7%Z ∉ pk <$> rows ex_db)
  ∨ (DoesNotExist = MultipleObjectsReturned ∧ ¬ unique_pks ex_db).
Proof.
  apply (proj2 (X22_views_errors ex_choices "other" ex_env
                  (ex_request "POST" ex_body) 7 ex_db) DoesNotExist).
  left. reflexivity.
Defined.

(** X23: editing is idempotent: submitting the same acceptable data a
    second time redirects again and leaves the table as the first
    submission made it. *)
Theorem X23_edit_post_idempotent (choices : list string) (other : string)
    (env env' : InsertEnv) (request : HttpRequestWithBody) (db : Table Post)
    (post : Post) :
  unique_pks db → post ∈ rows db →
  method request = "POST" → acceptable choices (POST request) →
  ∃ db',
    edit_post choices other env request (pk post) db = (inr (redirect "dash"), db')
    ∧ edit_post choices other env' request (pk post) db' = (inr (redirect "dash"), db').
Proof.
  intros Hnd Hin Hm (t & c & a & l & Ht & Hc & Ha & Hl & Hvalid).
  eexists. split; [by apply (edit_post_accepted _ _ _ _ _ _ t c a l) |].
  set (edited := submitted_post (pk post) (created_at post) t c a l).
  set (f := λ r : Post, if decide (pk r = pk post) then edited else r).
  assert (∀ r, pk (f r) = pk r) as Hpk.
  { intros r. unfold f. by case_decide. }
  change (pk post) with (pk edited) at 1.
  rewrite (edit_post_accepted choices other env' request _ edited t c a l);
    try done.
  - f_equal. f_equal. cbn [rows]. rewrite <-list_fmap_compose.
    apply list_fmap_ext. intros i r _. simpl. fold (f r). rewrite Hpk.
    unfold f. by case_decide.
  - unfold unique_pks. cbn [rows]. rewrite <-list_fmap_compose.
    erewrite list_fmap_ext; [exact Hnd |]. intros i r _. apply Hpk.
  - cbn [rows]. apply list_elem_of_fmap. exists post. split; [| done].
    unfold f. by rewrite decide_True.
Qed.

Lemma X23_edit_post_idempotent_witness :
  ∃ db',
    edit_post ex_choices "other" ex_env (ex_request "POST" ex_body) 1 ex_db
    = (inr (redirect "dash"), db')
    ∧ edit_post ex_choices "other" ex_env (ex_request "POST" ex_body) 1 db'
      = (inr (redirect "dash"), db').
Proof.
  apply (X23_edit_post_idempotent ex_choices "other" ex_env ex_env
           (ex_request "POST" ex_body) ex_db ex_post ex_db_unique ex_post_in_db).
  - reflexivity.
  - exists " New ", "fine", "bob", "js". by_evaluation.
Defined.

(** X24: deleting undoes creating: after a successful [create_post] under
    a fresh primary key, a [delete_post] of that key by a POST with a
    non-empty body redirects and gives back the table as it was before
    the post was created. *)
Theorem X24_create_then_delete (choices : list string) (other : string)
    (env : InsertEnv) (request deleting : HttpRequestWithBody) (db : Table Post) :
  unique_pks db → env_new_pk env ∉ pk <$> rows db →
  method request = "POST" → acceptable choices (POST request) →
  method deleting = "POST" → POST deleting ≠ ∅ →
  ∃ db',
    create_post choices other env request db = (inr (redirect "dash"), db')
    ∧ delete_post choices deleting (env_new_pk env) db' = (inr (redirect "dash"), db).
Proof.
  intros Hnd Hfresh Hm (t & c & a & l & Ht & Hc & Ha & Hl & Hvalid) Hm' Hne.
  eexists. split; [by apply (create_post_accepted _ _ _ _ _ t c a l) |].
  set (new := submitted_post (env_new_pk env) (env_now env) t c a l).
  change (env_new_pk env) with (pk new).
  rewrite delete_post_valid; try done.
  - cbn [rows]. rewrite filter_app, filter_pk_fresh by done.
    rewrite filter_cons_False, filter_nil by (by intros ?).
    by rewrite app_nil_r, table_eta.
  - unfold unique_pks. cbn [rows]. rewrite fmap_app. apply NoDup_app.
    split; [done |]. split; [| apply NoDup_singleton].
    by intros x Hx [->|[]%elem_of_nil]%elem_of_cons.
  - cbn [rows]. apply elem_of_app. right. apply list_elem_of_here.
  - by apply (valid_post_pk choices (submitted_post 0 0 t c a l)).
Qed.

Lemma X24_create_then_delete_witness :
  ∃ db',
    create_post ex_choices "other" ex_env (ex_request "POST" ex_body) ex_db
    = (inr (redirect "dash"), db')
    ∧ delete_post ex_choices (ex_request "POST" [("csrfmiddlewaretoken", "x")]) 2 db'
      = (inr (redirect "dash"), ex_db).
Proof.
  apply (X24_create_then_delete ex_choices "other" ex_env
           (ex_request "POST" ex_body)
           (ex_request "POST" [("csrfmiddlewaretoken", "x")]) ex_db ex_db_unique).
  - simpl. intros H. apply list_elem_of_In in H. simpl in H.
    destruct H as [H|[]]. discriminate H.
  - reflexivity.
  - exists " New ", "fine", "bob", "js". by_evaluation.
  - reflexivity.
  - apply (bool_decide_unpack _). by vm_compute.
Defined.

(** X25: the form of [delete_post] validates the stored post: a post
    whose content, trimmed, the validator rejects is not removed by any
    request; the view answers with its page and the table stays as it
    was. *)
Theorem X25_delete_post_validates_stored (choices : list string)
    (request : HttpRequestWithBody) (db : Table Post) (post : Post) :
  unique_pks db → post ∈ rows db →
  validate_default (Str.strip (content post))
  = Rejected "The text contains bad language" →
  ∃ context,
    delete_post choices request (pk post) db
    = (inr (render "posts/delete-post.html" context), db).
Proof.
  intros Hnd Hin Hrej.
  rewrite (delete_post_run choices request post db (get_found post db Hnd Hin)).
  cbv zeta. case_decide; [| by eexists].
  destruct (PostForm.is_valid _ _) eqn:Hv; [| by eexists].
  apply (is_valid_disabled_content choices _ post) in Hv; [| done..].
  rewrite Hrej in Hv. discriminate Hv.
Qed.

Lemma X25_delete_post_validates_stored_witness :
  ∃ context,
    delete_post ex_choices (ex_request "POST" [("csrfmiddlewaretoken", "x")]) 1
      {| rows := [ {| pk := 1; title := "T"; content := "a BAD_word_1"; author := "ann";
                      created_at := 10; language := "py" |} ] |}
    = (inr (render "posts/delete-post.html" context),
       {| rows := [ {| pk := 1; title := "T"; content := "a BAD_word_1"; author := "ann";
                       created_at := 10; language := "py" |} ] |}).
Proof.
  apply (X25_delete_post_validates_stored ex_choices
           (ex_request "POST" [("csrfmiddlewaretoken", "x")])
           {| rows := [ {| pk := 1; title := "T"; content := "a BAD_word_1";
                           author := "ann"; created_at := 10; language := "py" |} ] |}
           {| pk := 1; title := "T"; content := "a BAD_word_1"; author := "ann";
              created_at := 10; language := "py" |}).
  - unfold unique_pks. simpl. apply NoDup_singleton.
  - apply list_elem_of_here.
  - reflexivity.
Defined.

Lemma is_valid_disabled_data (choices : list string) (d1 d2 : gmap string string)
    (p : Post) :
  PostForm.is_valid choices (PostDeleteForm (Some d1) p)
  = PostForm.is_valid choices (PostDeleteForm (Some d2) p).
Proof. reflexivity. Qed.

(** X26: the fields of the delete form are disabled, so what the client
    submits in them is ignored: two requests with the same method whose
    bodies are both empty or both non-empty have the same effect on the
    table, and either both redirect to "dash" or neither does. *)
Theorem X26_delete_post_ignores_fields (choices : list string)
    (r1 r2 : HttpRequestWithBody) (k : Z) (db : Table Post) :
  method r1 = method r2 →
  (POST r1 = ∅ ↔ POST r2 = ∅) →
  (delete_post choices r1 k db).2 = (delete_post choices r2 k db).2
  ∧ ((delete_post choices r1 k db).1 = inr (redirect "dash")
     ↔ (delete_post choices r2 k db).1 = inr (redirect "dash")).
Proof.
  intros Hm Hbody.
  destruct (get_cases k db) as [[e He]|(post & Hget & Hin & <-)].
  - unfold delete_post. by rewrite !(view_get_fails _ _ e _ He).
  - rewrite !(delete_post_run choices _ post db Hget). cbv zeta.
    rewrite Hm. case_decide; [| done]. unfold POST_or_None.
    destruct (decide (POST r1 = ∅)) as [H1|H1], (decide (POST r2 = ∅)) as [H2|H2];
      try tauto; try done.
    rewrite (is_valid_disabled_data choices (POST r1) (POST r2)).
    by destruct (PostForm.is_valid _ _).
Qed.

Lemma X26_delete_post_ignores_fields_witness :
  (delete_post ex_choices (ex_request "POST" [("title", "changed")]) 1 ex_db).2
  = (delete_post ex_choices (ex_request "POST" [("csrfmiddlewaretoken", "x")]) 1 ex_db).2
  ∧ ((delete_post ex_choices (ex_request "POST" [("title", "changed")]) 1 ex_db).1
     = inr (redirect "dash")
     ↔ (delete_post ex_choices (ex_request "POST" [("csrfmiddlewaretoken", "x")]) 1 ex_db).1
       = inr (redirect "dash")).
Proof.
  apply (X26_delete_post_ignores_fields ex_choices
           (ex_request "POST" [("title", "changed")])
           (ex_request "POST" [("csrfmiddlewaretoken", "x")]) 1 ex_db).
  - reflexivity.
  - split; intros H; exfalso; revert H; apply (bool_decide_unpack _); by vm_compute.
Defined.
